(** * ArduCopter/flight_mode.cpp: flight-mode switching and the traffic
      avoidance manoeuvre

    A shallow embedding of [Copter::set_mode], [Copter::exit_mode], the mode
    predicates, [Copter::notify_flight_mode] and [Copter::avoidance_maneuver].

    The mode numbers and the build switches come from headers (defines.h,
    config.h): they are the fields of the class [Defines].  Calls into other
    parts of the firmware (the per-mode [*_init] routines, the mission, the
    logger, the fence, the motors) are recorded, in order, in the
    trace of the computation; every record carries the value [control_mode]
    had when the call was made, which is what the callee reads if it looks at
    the mode.  What these routines do inside is not part of this file: the
    model keeps the call and, for an init routine, its answer. *)

From Stdlib Require Import ZArith List Bool Lia Reals Lra.
From Stdlib Require String Ascii DecimalString DecimalN DecimalPos.
Import ListNotations.

Module FlightMode.

Local Open Scope Z_scope.

(** ** Mode numbers and build configuration *)

Class Defines := {
  STABILIZE : Z;
  ACRO : Z;
  ALT_HOLD : Z;
  AUTO : Z;
  GUIDED : Z;
  LOITER : Z;
  RTL : Z;
  CIRCLE : Z;
  LAND : Z;
  DRIFT : Z;
  SPORT : Z;
  FLIP : Z;
  AUTOTUNE : Z;
  POSHOLD : Z;
  BRAKE : Z;
  THROW : Z;
  STAB_RUAS : Z;
  AUTO_RUAS : Z;
  (* FRAME_CONFIG == HELI_FRAME *)
  HELI_FRAME : bool;
  (* AUTOTUNE_ENABLED == ENABLED *)
  AUTOTUNE_ENABLED : bool;
  (* POSHOLD_ENABLED == ENABLED *)
  POSHOLD_ENABLED : bool;
  (* AC_FENCE == ENABLED *)
  AC_FENCE : bool;
  (* MOUNT == ENABLED *)
  MOUNT : bool
}.

(** The per-mode initialisation routines [set_mode] dispatches to. *)
Inductive init_fn :=
| acro_init | heli_acro_init
| stabilize_init | heli_stabilize_init
| althold_init | auto_init | circle_init | loiter_init | guided_init
| land_init | rtl_init | drift_init | sport_init | flip_init
| autotune_init | poshold_init | brake_init | throw_init.

Inductive error_subsystem := ERROR_SUBSYSTEM_FLIGHT_MODE.

(** Calls that leave this file. *)
Inductive call :=
| init (f : init_fn) (ignore_checks : bool)
| autotune_stop
| mission_stop
| camera_mount_set_mode_to_default
| throw_exit
  (* set_accel_throttle_I_from_pilot_throttle(get_pilot_desired_throttle(c)) *)
| set_accel_throttle_I_from_pilot_throttle (control_in : Z)
| takeoff_stop
| use_flybar_passthrough (passthrough tail_passthrough : bool)
| set_acro_tail (set : bool)
  (* the ramp is 1.0 or 0.0 in the source *)
| set_stab_col_ramp (ramp : Z)
| reset_radio_passthrough
| Log_Write_Mode (mode : Z)
| fence_manual_recovery_start
| Log_Write_Error (sub : error_subsystem) (code : Z).

(** A call together with the [control_mode] in force when it was made. *)
Record observed := obs { seen_mode : Z; what : call }.

(** ** The part of [Copter] this file reads and writes *)

Record Copter := mkCopter {
  control_mode : Z;
  (* motors.armed() *)
  motors_armed : bool;
  (* ap.land_complete *)
  land_complete : bool;
  (* mission.state() == AP_Mission::MISSION_RUNNING *)
  mission_running : bool;
  (* channel_throttle->control_in *)
  control_in : Z;
  (* AP_Notify::flags.autopilot_mode *)
  autopilot_mode : bool
}.

(** ** A monad for the member functions: vehicle state and outside calls *)

Record result (A : Type) := mkResult {
  value : A;
  state : Copter;
  trace : list observed
}.
Arguments mkResult {A} _ _ _.
Arguments value {A} _.
Arguments state {A} _.
Arguments trace {A} _.

Definition M (A : Type) : Type := Copter -> result A.

Definition ret {A} (a : A) : M A := fun s => mkResult a s [].

Definition bind {A B} (m : M A) (k : A -> M B) : M B :=
  fun s =>
    let r := m s in
    let r' := k (value r) (state r) in
    mkResult (value r') (state r') (trace r ++ trace r').

Notation "x <- m ;; k" := (bind m (fun x => k))
  (at level 61, m at next level, right associativity).
Notation "m ;; k" := (bind m (fun _ => k))
  (at level 61, right associativity).

Definition get {A} (f : Copter -> A) : M A := fun s => mkResult (f s) s [].

Definition when (b : bool) (m : M unit) : M unit :=
  if b then m else ret tt.

(** An outside call is recorded with the mode current at that moment. *)
Definition do_call (c : call) : M unit :=
  fun s => mkResult tt s [obs (control_mode s) c].

Definition set_control_mode (m : Z) : M unit :=
  fun s => mkResult tt
             (mkCopter m (motors_armed s) (land_complete s)
                       (mission_running s) (control_in s) (autopilot_mode s))
             [].

Definition set_autopilot_mode (b : bool) : M unit :=
  fun s => mkResult tt
             (mkCopter (control_mode s) (motors_armed s) (land_complete s)
                       (mission_running s) (control_in s) b)
             [].

(** [mission.stop()]: the mission is no longer running afterwards. *)
Definition do_mission_stop : M unit :=
  fun s => mkResult tt
             (mkCopter (control_mode s) (motors_armed s) (land_complete s)
                       false (control_in s) (autopilot_mode s))
             [obs (control_mode s) mission_stop].

(** The calls [exit_mode] makes. *)
Definition is_cleanup (c : call) : bool :=
  match c with
  | autotune_stop | mission_stop | camera_mount_set_mode_to_default
  | throw_exit | set_accel_throttle_I_from_pilot_throttle _ | takeoff_stop
  | use_flybar_passthrough _ _ | set_acro_tail _ | set_stab_col_ramp _
  | reset_radio_passthrough => true
  | init _ _ | Log_Write_Mode _ | fence_manual_recovery_start
  | Log_Write_Error _ _ => false
  end.

Definition is_throttle_preload (c : call) : bool :=
  match c with
  | set_accel_throttle_I_from_pilot_throttle _ => true
  | _ => false
  end.

Definition is_error_record (c : call) : bool :=
  match c with
  | Log_Write_Error _ _ => true
  | _ => false
  end.

Section Flight.

Context {D : Defines}.

(** What an init routine answers; it may depend on the whole vehicle state. *)
Variable init_returns : init_fn -> bool -> Copter -> bool.

Definition do_init (f : init_fn) (ignore_checks : bool) : M bool :=
  ok <- get (init_returns f ignore_checks) ;;
  do_call (init f ignore_checks) ;;
  ret ok.

(** The eighteen case labels of [print_flight_mode]'s switch. *)
Definition mode_labels : list Z :=
  [STABILIZE; STAB_RUAS; ACRO; ALT_HOLD; AUTO; AUTO_RUAS; GUIDED; LOITER; RTL;
   CIRCLE; LAND; DRIFT; SPORT; FLIP; AUTOTUNE; POSHOLD; BRAKE; THROW].

(** ** Mode predicates *)

Definition mode_requires_GPS (mode : Z) : bool :=
  if mode =? AUTO then true
  else if mode =? AUTO_RUAS then true
  else if mode =? GUIDED then true
  else if mode =? LOITER then true
  else if mode =? RTL then true
  else if mode =? CIRCLE then true
  else if mode =? DRIFT then true
  else if mode =? POSHOLD then true
  else if mode =? BRAKE then true
  else if mode =? THROW then true
  else false.

Definition mode_has_manual_throttle (mode : Z) : bool :=
  if mode =? ACRO then true
  else if mode =? STABILIZE then true
  else if mode =? STAB_RUAS then true
  else false.

Definition mode_allows_arming (mode : Z) (arming_from_gcs : bool) : bool :=
  if mode_has_manual_throttle mode || (mode =? LOITER) || (mode =? ALT_HOLD)
     || (mode =? POSHOLD) || (mode =? DRIFT) || (mode =? SPORT)
     || (mode =? THROW) || (arming_from_gcs && (mode =? GUIDED))
  then true
  else false.

Definition notify_flight_mode (mode : Z) : M unit :=
  if mode =? AUTO then set_autopilot_mode true
  else if mode =? AUTO_RUAS then set_autopilot_mode true
  else if mode =? GUIDED then set_autopilot_mode true
  else if mode =? RTL then set_autopilot_mode true
  else if mode =? CIRCLE then set_autopilot_mode true
  else if mode =? LAND then set_autopilot_mode true
  else set_autopilot_mode false.

(** ** exit_mode *)

Definition exit_mode (old_control_mode new_control_mode : Z) : M unit :=
  when (AUTOTUNE_ENABLED && (old_control_mode =? AUTOTUNE)) (do_call autotune_stop) ;;
  when ((old_control_mode =? AUTO) || (old_control_mode =? AUTO_RUAS))
       (running <- get mission_running ;;
        when running do_mission_stop ;;
        when MOUNT (do_call camera_mount_set_mode_to_default)) ;;
  when (old_control_mode =? THROW) (do_call throw_exit) ;;
  armed <- get motors_armed ;;
  landed <- get land_complete ;;
  when (mode_has_manual_throttle old_control_mode
        && negb (mode_has_manual_throttle new_control_mode)
        && armed && negb landed)
       (c <- get control_in ;;
        do_call (set_accel_throttle_I_from_pilot_throttle c)) ;;
  do_call takeoff_stop ;;
  when HELI_FRAME
       (when (old_control_mode =? ACRO)
             (do_call (use_flybar_passthrough false false) ;;
              do_call (set_acro_tail false)) ;;
        when (negb (mode_has_manual_throttle old_control_mode))
             (if (new_control_mode =? STABILIZE) || (new_control_mode =? STAB_RUAS)
              then do_call (set_stab_col_ramp 1)
              else if new_control_mode =? ACRO
                   then do_call (set_stab_col_ramp 0)
                   else ret tt) ;;
        do_call reset_radio_passthrough).

(** ** set_mode *)

(** The switch of [set_mode]: the init routine of the case that matches, or
    none when control reaches [default]. *)
Definition init_case (mode : Z) : option init_fn :=
  if mode =? ACRO then Some (if HELI_FRAME then heli_acro_init else acro_init)
  else if mode =? STABILIZE
       then Some (if HELI_FRAME then heli_stabilize_init else stabilize_init)
  else if mode =? STAB_RUAS
       then Some (if HELI_FRAME then heli_stabilize_init else stabilize_init)
  else if mode =? ALT_HOLD then Some althold_init
  else if mode =? AUTO then Some auto_init
  else if mode =? AUTO_RUAS then Some auto_init
  else if mode =? CIRCLE then Some circle_init
  else if mode =? LOITER then Some loiter_init
  else if mode =? GUIDED then Some guided_init
  else if mode =? LAND then Some land_init
  else if mode =? RTL then Some rtl_init
  else if mode =? DRIFT then Some drift_init
  else if mode =? SPORT then Some sport_init
  else if mode =? FLIP then Some flip_init
  else if AUTOTUNE_ENABLED && (mode =? AUTOTUNE) then Some autotune_init
  else if POSHOLD_ENABLED && (mode =? POSHOLD) then Some poshold_init
  else if mode =? BRAKE then Some brake_init
  else if mode =? THROW then Some throw_init
  else None.

Definition set_mode (mode : Z) : M bool :=
  armed <- get motors_armed ;;
  let ignore_checks := negb armed in
  current <- get control_mode ;;
  if mode =? current then ret true
  else
    success <- match init_case mode with
               | Some f => do_init f ignore_checks
               | None => ret false
               end ;;
    (if success
     then
       old <- get control_mode ;;
       exit_mode old mode ;;
       set_control_mode mode ;;
       now <- get control_mode ;;
       do_call (Log_Write_Mode now) ;;
       when AC_FENCE (do_call fence_manual_recovery_start)
     else
       do_call (Log_Write_Error ERROR_SUBSYSTEM_FLIGHT_MODE mode)) ;;
    when success (now <- get control_mode ;; notify_flight_mode now) ;;
    ret success.

End Flight.

(** ** Notions used to state what a computation may touch *)

(** Every field but [mission_running] is as before. *)
Definition frame (s s' : Copter) : Prop :=
  control_mode s' = control_mode s /\
  motors_armed s' = motors_armed s /\
  land_complete s' = land_complete s /\
  control_in s' = control_in s /\
  autopilot_mode s' = autopilot_mode s.

(** [m] keeps the frame and makes only calls accepted by [P], each of them
    seeing the mode of the state [m] started in. *)
Definition calls_only (P : call -> bool) {A} (m : M A) : Prop :=
  forall s,
    frame s (state (m s)) /\
    Forall (fun o => seen_mode o = control_mode s /\ P (what o) = true)
           (trace (m s)).

(** The effects of a completed mode change: cleanup, mode log, fence. *)
Definition is_transition_effect (c : call) : bool :=
  match c with
  | Log_Write_Mode _ | fence_manual_recovery_start => true
  | _ => is_cleanup c
  end.

(** The throttle pre-load calls among the calls of a trace. *)
Definition throttle_preloads (l : list observed) : list observed :=
  filter (fun o => is_throttle_preload (what o)) l.

Definition not_preload (c : call) : bool := negb (is_throttle_preload c).

Definition error_records (l : list observed) : list observed :=
  filter (fun o => is_error_record (what o)) l.

End FlightMode.

(** * The avoidance manoeuvre

    [float] quantities are read as real numbers: the model keeps the formulas,
    the comparisons and the constants of the source and leaves rounding,
    overflow and NaN aside; [abs] is the absolute value and [sqrt] the square
    root.  [atanf] comes from the C library and is a parameter.  The source never assigns the local [avoidance_accel_pitch]
    before reading it, so its value is an input of the model as well. *)

Module Avoidance.

Local Open Scope R_scope.

(** The x and y components of a vector ([_rel_v], [_rel_d]). *)
Record Vector := mkVector { x : R; y : R }.

(** One [Log_Write_Avoidance] record. *)
Record avoidance_log := mkLog {
  log_do_avoid : bool;
  log_roll : R;
  log_pitch : R;
  log_do_track : bool;
  log_yaw : R
}.

Record Copter := mkCopter {
  _trafic_angle : R;
  _trafic_distance : R;
  _rel_v : Vector;
  _rel_d : Vector;
  trafic_angle : R;
  (* g.acro_yaw_p *)
  acro_yaw_p : R;
  do_track_maneuver : bool;
  do_avoid_maneuver : bool;
  avoidance_roll_angle_cd : R;
  avoidance_pitch_angle_cd : R;
  (* the records written through Log_Write_Avoidance, oldest first *)
  avoidance_logs : list avoidance_log
}.

(** [a < b] as a C condition. *)
Definition ltb (a b : R) : bool := if Rlt_dec a b then true else false.

Definition safety_bubble : R := 500.
Definition manouver_bubble : R := 650.
Definition avoidance_gain : R := 500.

(** Line 385: [if(_trafic_distance < safety_bubble){_trafic_distance = safety_bubble;}] *)
Definition floor_distance (distance : R) : R :=
  if ltb distance safety_bubble then safety_bubble else distance.

(** Line 387, as a function of the distance it reads. *)
Definition response (distance : R) : R :=
  10 * avoidance_gain / (distance * sqrt safety_bubble - 1).

(** Line 389. *)
Definition avoidance_accel_roll (rel_v : Vector) (distance : R) : R :=
  x rel_v * response distance.

(** Lines 395 and 398: [if(abs(a) > 5) {a = 5;}] *)
Definition limit_angle (a : R) : R :=
  if ltb 5 (Rabs a) then 5 else a.

(** Lines 402 and 403: [if(d < 0) { a = -a;}] *)
Definition away_from (d a : R) : R :=
  if ltb d 0 then - a else a.

(** Lines 406 and 407: [a *= -10000] *)
Definition scale_angle (a : R) : R := a * -10000.

(** The telemetry source writes bearing and distance before the call. *)
Definition with_track (angle distance : R) (s : Copter) : Copter :=
  mkCopter angle distance (_rel_v s) (_rel_d s) (trafic_angle s) (acro_yaw_p s)
           (do_track_maneuver s) (do_avoid_maneuver s)
           (avoidance_roll_angle_cd s) (avoidance_pitch_angle_cd s)
           (avoidance_logs s).

Definition Log_Write_Avoidance (s : Copter) : Copter :=
  mkCopter (_trafic_angle s) (_trafic_distance s) (_rel_v s) (_rel_d s)
           (trafic_angle s) (acro_yaw_p s)
           (do_track_maneuver s) (do_avoid_maneuver s)
           (avoidance_roll_angle_cd s) (avoidance_pitch_angle_cd s)
           (avoidance_logs s ++
            [mkLog (do_avoid_maneuver s) (avoidance_roll_angle_cd s)
                   (avoidance_pitch_angle_cd s) (do_track_maneuver s)
                   (trafic_angle s * acro_yaw_p s)]).

(** The two zones, as conditions on the bearing and distance held by [s]. *)
Definition in_track_zone (s : Copter) : Prop :=
  Rabs (_trafic_angle s) < 70 /\ 50 < _trafic_distance s < 1000.

Definition in_avoid_zone (s : Copter) : Prop :=
  Rabs (_trafic_angle s) < 70 /\ 50 < _trafic_distance s < 700.

Section Maneuver.

Variable atanf : R -> R.

(** [avoidance_accel_pitch] is the value the unassigned local happens to hold. *)
Definition avoidance_maneuver (avoidance_accel_pitch : R) (s : Copter) : Copter :=
  let track :=
    ltb (Rabs (_trafic_angle s)) 70 && ltb 50 (_trafic_distance s)
    && ltb (_trafic_distance s) 1000 in
  if ltb (Rabs (_trafic_angle s)) 70 && ltb 50 (_trafic_distance s)
     && ltb (_trafic_distance s) 700
  then
    let distance := floor_distance (_trafic_distance s) in
    let accel_roll := avoidance_accel_roll (_rel_v s) distance in
    let roll := atanf (accel_roll / 9.81) in
    let pitch := atanf (avoidance_accel_pitch / 9.81) in
    let roll := limit_angle roll in
    let pitch := limit_angle pitch in
    let roll := away_from (y (_rel_d s)) roll in
    let pitch := away_from (x (_rel_d s)) pitch in
    Log_Write_Avoidance
      (mkCopter (_trafic_angle s) distance (_rel_v s) (_rel_d s)
                (trafic_angle s) (acro_yaw_p s) track true
                (scale_angle roll) (scale_angle pitch) (avoidance_logs s))
  else
    Log_Write_Avoidance
      (mkCopter (_trafic_angle s) (_trafic_distance s) (_rel_v s) (_rel_d s)
                (trafic_angle s) (acro_yaw_p s) track false
                (avoidance_roll_angle_cd s) (avoidance_pitch_angle_cd s)
                (avoidance_logs s)).

End Maneuver.

End Avoidance.

(** * Sample configurations and inputs *)

Module Samples.

Local Open Scope Z_scope.

(** ArduCopter's mode numbers, the two RUAS modes after them, built for a
    helicopter frame with every optional feature enabled. *)
Definition heli_defines : FlightMode.Defines :=
  {| FlightMode.STABILIZE := 0;
     FlightMode.ACRO := 1;
     FlightMode.ALT_HOLD := 2;
     FlightMode.AUTO := 3;
     FlightMode.GUIDED := 4;
     FlightMode.LOITER := 5;
     FlightMode.RTL := 6;
     FlightMode.CIRCLE := 7;
     FlightMode.LAND := 9;
     FlightMode.DRIFT := 11;
     FlightMode.SPORT := 13;
     FlightMode.FLIP := 14;
     FlightMode.AUTOTUNE := 15;
     FlightMode.POSHOLD := 16;
     FlightMode.BRAKE := 17;
     FlightMode.THROW := 18;
     FlightMode.STAB_RUAS := 19;
     FlightMode.AUTO_RUAS := 20;
     FlightMode.HELI_FRAME := true;
     FlightMode.AUTOTUNE_ENABLED := true;
     FlightMode.POSHOLD_ENABLED := true;
     FlightMode.AC_FENCE := true;
     FlightMode.MOUNT := true |}.

(** Init routines that refuse the position modes unless checks are ignored. *)
Definition gps_missing (f : FlightMode.init_fn) (ignore_checks : bool)
    (s : FlightMode.Copter) : bool :=
  match f with
  | FlightMode.auto_init | FlightMode.circle_init | FlightMode.loiter_init
  | FlightMode.guided_init | FlightMode.rtl_init | FlightMode.poshold_init
  | FlightMode.brake_init | FlightMode.throw_init => ignore_checks
  | _ => true
  end.

(** Armed and flying in STABILIZE, throttle stick at 400. *)
Definition flying_stabilize : FlightMode.Copter :=
  FlightMode.mkCopter 0 true false false 400 false.

(** Armed and flying a mission in AUTO. *)
Definition flying_auto : FlightMode.Copter :=
  FlightMode.mkCopter 3 true false true 500 true.

(** Traffic dead ahead at 600, closing at 100 along x; nothing computed yet. *)
Definition first_contact : Avoidance.Copter :=
  Avoidance.mkCopter 0%R 600%R (Avoidance.mkVector 100%R 0%R)
                     (Avoidance.mkVector 600%R 0%R) 0%R 1%R
                     false false 0%R 0%R [].

(** The same traffic with the x velocity reversed, the displacement as before. *)
Definition mirrored_contact : Avoidance.Copter :=
  Avoidance.mkCopter 0%R 600%R (Avoidance.mkVector (-100)%R 0%R)
                     (Avoidance.mkVector 600%R 0%R) 0%R 1%R
                     false false 0%R 0%R [].

End Samples.

(** * update_flight_mode

    The per-mode [*_run] routines are outside calls like the init routines;
    the tick is modelled by the calls it makes, in order.  The two limits
    [getEkfControlLimits] writes are not read in this file. *)

Module Dispatch.

Import FlightMode.
Local Open Scope Z_scope.

Inductive run_fn :=
| acro_run | heli_acro_run
| stabilize_run | heli_stabilize_run | heli_stabilize_run_ruas
| althold_run | auto_run | auto_run_ruas | circle_run | loiter_run | guided_run
| land_run | rtl_run | drift_run | sport_run | flip_run
| autotune_run | poshold_run | brake_run | throw_run.

Inductive tick_call :=
| getEkfControlLimits
| run (r : run_fn).

Section Tick.

Context {D : Defines}.

(** The switch of [update_flight_mode]; it has no [default]. *)
Definition run_case (mode : Z) : option run_fn :=
  if mode =? ACRO then Some (if HELI_FRAME then heli_acro_run else acro_run)
  else if mode =? STABILIZE
       then Some (if HELI_FRAME then heli_stabilize_run else stabilize_run)
  else if mode =? STAB_RUAS
       then Some (if HELI_FRAME then heli_stabilize_run_ruas else stabilize_run)
  else if mode =? ALT_HOLD then Some althold_run
  else if mode =? AUTO then Some auto_run
  else if mode =? AUTO_RUAS then Some auto_run_ruas
  else if mode =? CIRCLE then Some circle_run
  else if mode =? LOITER then Some loiter_run
  else if mode =? GUIDED then Some guided_run
  else if mode =? LAND then Some land_run
  else if mode =? RTL then Some rtl_run
  else if mode =? DRIFT then Some drift_run
  else if mode =? SPORT then Some sport_run
  else if mode =? FLIP then Some flip_run
  else if AUTOTUNE_ENABLED && (mode =? AUTOTUNE) then Some autotune_run
  else if POSHOLD_ENABLED && (mode =? POSHOLD) then Some poshold_run
  else if mode =? BRAKE then Some brake_run
  else if mode =? THROW then Some throw_run
  else None.

Definition update_flight_mode (s : Copter) : list tick_call :=
  getEkfControlLimits
  :: match run_case (control_mode s) with
     | Some r => [run r]
     | None => []
     end.

End Tick.

Section Exit.

Context {D : Defines}.

(** The state [exit_mode] leaves: only [mission_running] can differ. *)
Definition after_exit (old : Z) (s : Copter) : Copter :=
  mkCopter (control_mode s) (motors_armed s) (land_complete s)
           (mission_running s && negb ((old =? AUTO) || (old =? AUTO_RUAS)))
           (control_in s) (autopilot_mode s).

End Exit.

(** Counting a given call in a trace. *)
Definition call_eq_dec (a b : call) : {a = b} + {a <> b}.
Proof.
  decide equality;
    try apply Z.eq_dec; try apply Bool.bool_dec;
    decide equality.
Defined.

Definition occurrences (c : call) (t : list observed) : nat :=
  count_occ call_eq_dec (map what t) c.

Definition is_init (c : call) : bool :=
  match c with
  | init _ _ => true
  | _ => false
  end.

(** The calls [exit_mode] makes only on a helicopter frame. *)
Definition is_heli_call (c : call) : bool :=
  match c with
  | use_flybar_passthrough _ _ | set_acro_tail _ | set_stab_col_ramp _
  | reset_radio_passthrough => true
  | _ => false
  end.

End Dispatch.

(** * print_flight_mode

    The function is modelled by the text it sends to the port. *)

Module Diagnostics.

Import FlightMode.
Import String.
Local Open Scope string_scope.
Local Open Scope Z_scope.

(** [printf("%u", (unsigned)mode)] for a [uint8_t] mode. *)
Definition print_unsigned (mode : Z) : string :=
  DecimalString.NilZero.string_of_uint (N.to_uint (Z.to_N mode)).

Section Print.

Context {D : Defines}.

Definition print_flight_mode (mode : Z) : string :=
  if mode =? STABILIZE then "STABILIZE"
  else if mode =? STAB_RUAS then "STAB_RUAS"
  else if mode =? ACRO then "ACRO"
  else if mode =? ALT_HOLD then "ALT_HOLD"
  else if mode =? AUTO then "AUTO"
  else if mode =? AUTO_RUAS then "AUTO_RUAS"
  else if mode =? GUIDED then "GUIDED"
  else if mode =? LOITER then "LOITER"
  else if mode =? RTL then "RTL"
  else if mode =? CIRCLE then "CIRCLE"
  else if mode =? LAND then "LAND"
  else if mode =? DRIFT then "DRIFT"
  else if mode =? SPORT then "SPORT"
  else if mode =? FLIP then "FLIP"
  else if mode =? AUTOTUNE then "AUTOTUNE"
  else if mode =? POSHOLD then "POSHOLD"
  else if mode =? BRAKE then "BRAKE"
  else if mode =? THROW then "THROW"
  else "Mode(" ++ print_unsigned mode ++ ")".

(** The names of the switch, in the order of [mode_labels]. *)
Definition mode_names : list string :=
  ["STABILIZE"; "STAB_RUAS"; "ACRO"; "ALT_HOLD"; "AUTO"; "AUTO_RUAS"; "GUIDED";
   "LOITER"; "RTL"; "CIRCLE"; "LAND"; "DRIFT"; "SPORT"; "FLIP"; "AUTOTUNE";
   "POSHOLD"; "BRAKE"; "THROW"].

End Print.

End Diagnostics.

(** * More sample configurations *)

Module MoreSamples.

Local Open Scope Z_scope.

(** The same mode numbers on a multicopter frame, without fence and mount. *)
Definition quad_defines : FlightMode.Defines :=
  {| FlightMode.STABILIZE := 0;
     FlightMode.ACRO := 1;
     FlightMode.ALT_HOLD := 2;
     FlightMode.AUTO := 3;
     FlightMode.GUIDED := 4;
     FlightMode.LOITER := 5;
     FlightMode.RTL := 6;
     FlightMode.CIRCLE := 7;
     FlightMode.LAND := 9;
     FlightMode.DRIFT := 11;
     FlightMode.SPORT := 13;
     FlightMode.FLIP := 14;
     FlightMode.AUTOTUNE := 15;
     FlightMode.POSHOLD := 16;
     FlightMode.BRAKE := 17;
     FlightMode.THROW := 18;
     FlightMode.STAB_RUAS := 19;
     FlightMode.AUTO_RUAS := 20;
     FlightMode.HELI_FRAME := false;
     FlightMode.AUTOTUNE_ENABLED := true;
     FlightMode.POSHOLD_ENABLED := true;
     FlightMode.AC_FENCE := false;
     FlightMode.MOUNT := false |}.

(** Traffic ahead at 100 and at 300, both nearer than the safety bubble. *)
Definition near_contact : Avoidance.Copter :=
  Avoidance.with_track 0%R 100%R Samples.first_contact.

Definition nearer_bubble_contact : Avoidance.Copter :=
  Avoidance.with_track 0%R 300%R Samples.first_contact.

End MoreSamples.

(** * Facts about mode switching *)

Module ModeFacts.

Import FlightMode.
Local Open Scope Z_scope.

(** ** The monad *)

Lemma trace_bind {A B} (m : M A) (k : A -> M B) s :
  trace ((x <- m ;; k x) s) = trace (m s) ++ trace (k (value (m s)) (state (m s))).
Proof. reflexivity. Qed.

Lemma state_bind {A B} (m : M A) (k : A -> M B) s :
  state ((x <- m ;; k x) s) = state (k (value (m s)) (state (m s))).
Proof. reflexivity. Qed.

Lemma value_bind {A B} (m : M A) (k : A -> M B) s :
  value ((x <- m ;; k x) s) = value (k (value (m s)) (state (m s))).
Proof. reflexivity. Qed.

Lemma frame_refl s : frame s s.
Proof. repeat split. Qed.

Lemma frame_trans s1 s2 s3 : frame s1 s2 -> frame s2 s3 -> frame s1 s3.
Proof.
  unfold frame. intros (a1 & a2 & a3 & a4 & a5) (b1 & b2 & b3 & b4 & b5).
  repeat split; congruence.
Qed.

Section CallsOnly.

Variable P : call -> bool.

Lemma calls_only_ret {A} (a : A) : calls_only P (ret a).
Proof. intro s. split; [apply frame_refl | constructor]. Qed.

Lemma calls_only_get {A} (f : Copter -> A) : calls_only P (get f).
Proof. intro s. split; [apply frame_refl | constructor]. Qed.

Lemma calls_only_call c : P c = true -> calls_only P (do_call c).
Proof.
  intros Hc s. split; [apply frame_refl |].
  constructor; [split; [reflexivity | exact Hc] | constructor].
Qed.

Lemma calls_only_mission_stop :
  P mission_stop = true -> calls_only P do_mission_stop.
Proof.
  intros Hc s. split; [repeat split |].
  constructor; [split; [reflexivity | exact Hc] | constructor].
Qed.

Lemma calls_only_bind {A B} (m : M A) (k : A -> M B) :
  calls_only P m -> (forall a, calls_only P (k a)) ->
  calls_only P (x <- m ;; k x).
Proof.
  intros Hm Hk s.
  destruct (Hm s) as [Fm Tm].
  destruct (Hk (value (m s)) (state (m s))) as [Fk Tk].
  split.
  - rewrite state_bind. eapply frame_trans; eassumption.
  - rewrite trace_bind. apply Forall_app. split; [exact Tm |].
    destruct Fm as [Hmode _]. rewrite Hmode in Tk. exact Tk.
Qed.

Lemma calls_only_when b (m : M unit) :
  calls_only P m -> calls_only P (when b m).
Proof. intro Hm. destruct b; [exact Hm | apply calls_only_ret]. Qed.

Lemma calls_only_if {A} (b : bool) (m1 m2 : M A) :
  calls_only P m1 -> calls_only P m2 -> calls_only P (if b then m1 else m2).
Proof. destruct b; trivial. Qed.

End CallsOnly.

Ltac calls_only_tac :=
  repeat first
    [ apply calls_only_bind; [| intro]
    | apply calls_only_when
    | apply calls_only_if
    | apply calls_only_get
    | apply calls_only_ret
    | apply calls_only_mission_stop; reflexivity
    | apply calls_only_call; reflexivity ].

Lemma filter_nil_of_Forall {A} (f : A -> bool) (l : list A) :
  Forall (fun a => f a = false) l -> filter f l = [].
Proof.
  induction 1 as [| a l Ha _ IH]; simpl; [reflexivity |].
  rewrite Ha. exact IH.
Qed.

Section Facts.

Context {D : Defines}.
Variable init_returns : init_fn -> bool -> Copter -> bool.

(** ** exit_mode *)

Lemma exit_mode_cleanup old new : calls_only is_cleanup (exit_mode old new).
Proof. unfold exit_mode. calls_only_tac. Qed.

Lemma quiet_preloads {A} (m : M A) s :
  calls_only not_preload m -> throttle_preloads (trace (m s)) = [].
Proof.
  intro Hm. destruct (Hm s) as [_ Tm].
  apply filter_nil_of_Forall.
  eapply Forall_impl; [| exact Tm].
  intros o [_ Ho]. unfold not_preload in Ho.
  now apply negb_true_iff in Ho.
Qed.

Lemma preloads_bind {A B} (m : M A) (k : A -> M B) s :
  throttle_preloads (trace ((x <- m ;; k x) s)) =
  throttle_preloads (trace (m s)) ++
  throttle_preloads (trace (k (value (m s)) (state (m s)))).
Proof. rewrite trace_bind. apply filter_app. Qed.

Lemma exit_mode_preloads old new s :
  throttle_preloads (trace (exit_mode old new s)) =
  if mode_has_manual_throttle old && negb (mode_has_manual_throttle new)
     && motors_armed s && negb (land_complete s)
  then [obs (control_mode s)
            (set_accel_throttle_I_from_pilot_throttle (control_in s))]
  else [].
Proof.
  unfold exit_mode.
  match goal with
  | |- context [bind ?m1 (fun _ => bind ?m2 (fun _ => bind ?m3 ?k))] =>
      assert (Hq : calls_only not_preload (m1 ;; m2 ;; m3 ;; ret tt))
        by calls_only_tac;
      destruct (Hq s) as [(Hmode & Harmed & Hland & Hin & _) _];
      rewrite !state_bind in Hmode, Harmed, Hland, Hin;
      rewrite (preloads_bind m1), (quiet_preloads m1) by calls_only_tac;
      rewrite (preloads_bind m2), (quiet_preloads m2) by calls_only_tac;
      rewrite (preloads_bind m3), (quiet_preloads m3) by calls_only_tac
  end.
  cbv beta in *. simpl (state (ret _ _)) in *.
  match goal with
  | |- context [state (?m3 ?s2)] => set (s3 := state (m3 s2)) in *
  end.
  rewrite !preloads_bind. simpl (trace (get _ _)). simpl (value (get _ _)).
  simpl (state (get _ _)). rewrite Harmed, Hland.
  rewrite (quiet_preloads (do_call takeoff_stop)) by calls_only_tac.
  rewrite (quiet_preloads (when HELI_FRAME _)) by calls_only_tac.
  destruct (mode_has_manual_throttle old && negb (mode_has_manual_throttle new)
            && motors_armed s && negb (land_complete s)).
  - simpl. rewrite Hmode, Hin. reflexivity.
  - reflexivity.
Qed.

(** ** set_mode, case by case *)

Local Arguments exit_mode : simpl never.
Local Arguments notify_flight_mode : simpl never.

Lemma notify_flight_mode_silent mode s :
  trace (notify_flight_mode mode s) = [].
Proof.
  unfold notify_flight_mode.
  repeat match goal with |- context [if ?b then _ else _] => destruct b end;
    reflexivity.
Qed.

Lemma notify_flight_mode_keeps_mode mode s :
  control_mode (state (notify_flight_mode mode s)) = control_mode s.
Proof.
  unfold notify_flight_mode.
  repeat match goal with |- context [if ?b then _ else _] => destruct b end;
    reflexivity.
Qed.

Lemma notify_flight_mode_flag mode s1 s2 :
  autopilot_mode (state (notify_flight_mode mode s1)) =
  autopilot_mode (state (notify_flight_mode mode s2)).
Proof.
  unfold notify_flight_mode.
  repeat match goal with |- context [if ?b then _ else _] => destruct b end;
    reflexivity.
Qed.

Lemma set_mode_same s :
  set_mode init_returns (control_mode s) s = mkResult true s [].
Proof.
  unfold set_mode, bind, get. simpl. rewrite Z.eqb_refl. reflexivity.
Qed.

Lemma set_mode_default mode s :
  mode <> control_mode s -> init_case mode = None ->
  set_mode init_returns mode s =
  mkResult false s
    [obs (control_mode s) (Log_Write_Error ERROR_SUBSYSTEM_FLIGHT_MODE mode)].
Proof.
  intros Hne Hnone. apply Z.eqb_neq in Hne.
  unfold set_mode, bind, get. simpl. rewrite Hne, Hnone. reflexivity.
Qed.

Lemma set_mode_refused mode s f :
  mode <> control_mode s -> init_case mode = Some f ->
  init_returns f (negb (motors_armed s)) s = false ->
  set_mode init_returns mode s =
  mkResult false s
    [obs (control_mode s) (init f (negb (motors_armed s)));
     obs (control_mode s) (Log_Write_Error ERROR_SUBSYSTEM_FLIGHT_MODE mode)].
Proof.
  intros Hne Hsome Hret. apply Z.eqb_neq in Hne.
  unfold set_mode, do_init, bind, get. simpl. rewrite Hne, Hsome. simpl.
  rewrite Hret. reflexivity.
Qed.

Lemma set_mode_accepted mode s f :
  mode <> control_mode s -> init_case mode = Some f ->
  init_returns f (negb (motors_armed s)) s = true ->
  set_mode init_returns mode s =
  mkResult true
    (state (notify_flight_mode mode
              (state (set_control_mode mode
                        (state (exit_mode (control_mode s) mode s))))))
    (obs (control_mode s) (init f (negb (motors_armed s)))
     :: trace (exit_mode (control_mode s) mode s)
     ++ obs mode (Log_Write_Mode mode)
     :: (if AC_FENCE then [obs mode fence_manual_recovery_start] else [])).
Proof.
  intros Hne Hsome Hret. apply Z.eqb_neq in Hne.
  unfold set_mode, do_init, bind, get. rewrite Hsome.
  cbn. rewrite Hne. cbn. rewrite Hret. cbn.
  rewrite notify_flight_mode_silent.
  destruct AC_FENCE; cbn; rewrite ?app_nil_r, <- ?app_assoc; reflexivity.
Qed.

Lemma exit_mode_stops_takeoff old new s :
  In (obs (control_mode s) takeoff_stop) (trace (exit_mode old new s)).
Proof.
  destruct (exit_mode_cleanup old new s) as [_ Hall].
  assert (Hex : Exists (fun o => what o = takeoff_stop)
                       (trace (exit_mode old new s))).
  { unfold exit_mode.
    do 6 (rewrite trace_bind; apply Exists_app; right).
    rewrite trace_bind. apply Exists_app. left.
    constructor. reflexivity. }
  apply Exists_exists in Hex. destruct Hex as (o & Hin & Hwhat).
  rewrite Forall_forall in Hall. destruct (Hall o Hin) as [Hseen _].
  destruct o as [m c]. simpl in *. subst. exact Hin.
Qed.

(** ** The mode predicates *)

Lemma manual_throttle_iff mode :
  mode_has_manual_throttle mode = true <->
  mode = ACRO \/ mode = STABILIZE \/ mode = STAB_RUAS.
Proof.
  unfold mode_has_manual_throttle.
  destruct (Z.eqb_spec mode ACRO); [tauto |].
  destruct (Z.eqb_spec mode STABILIZE); [tauto |].
  destruct (Z.eqb_spec mode STAB_RUAS); [tauto |].
  split; [discriminate | tauto].
Qed.

Lemma labels_differ i j :
  NoDup mode_labels ->
  (i <? 18)%nat = true -> (j <? 18)%nat = true -> (i =? j)%nat = false ->
  nth i mode_labels 0 <> nth j mode_labels 0.
Proof.
  intros Hnd Hi Hj Hij Heq.
  apply Nat.ltb_lt in Hi. apply Nat.ltb_lt in Hj. apply Nat.eqb_neq in Hij.
  apply Hij. apply (proj1 (NoDup_nth mode_labels 0) Hnd i j); assumption.
Qed.

Lemma alt_hold_not_manual :
  NoDup mode_labels -> mode_has_manual_throttle ALT_HOLD = false.
Proof.
  intro Hnd.
  destruct (mode_has_manual_throttle ALT_HOLD) eqn:E; [| reflexivity].
  apply manual_throttle_iff in E.
  pose proof (labels_differ 3 2 Hnd eq_refl eq_refl eq_refl) as H1.
  pose proof (labels_differ 3 0 Hnd eq_refl eq_refl eq_refl) as H2.
  pose proof (labels_differ 3 1 Hnd eq_refl eq_refl eq_refl) as H3.
  simpl in H1, H2, H3. tauto.
Qed.

Lemma init_case_same_mode mode s :
  init_case mode = None -> init_case (control_mode s) <> None ->
  mode <> control_mode s.
Proof. congruence. Qed.

(** [set_mode] only ever leaves a mode of its own switch in [control_mode]. *)
Lemma set_mode_keeps_known_mode mode s :
  init_case (control_mode s) <> None ->
  init_case (control_mode (state (set_mode init_returns mode s))) <> None.
Proof.
  intro Hknown.
  destruct (Z.eq_dec mode (control_mode s)) as [-> | Hne].
  - rewrite set_mode_same. exact Hknown.
  - destruct (init_case mode) as [f |] eqn:Hcase.
    + destruct (init_returns f (negb (motors_armed s)) s) eqn:Hret.
      * rewrite (set_mode_accepted mode s f Hne Hcase Hret).
        cbn [state]. rewrite notify_flight_mode_keeps_mode. cbn.
        rewrite Hcase. discriminate.
      * rewrite (set_mode_refused mode s f Hne Hcase Hret). exact Hknown.
    + rewrite (set_mode_default mode s Hne Hcase). exact Hknown.
Qed.

(** ** The claims *)

(** C5. Asking for the mode the vehicle is already in succeeds at once: the
    result is [true], no init routine runs, nothing is cleaned up, logged or
    notified (the trace is empty), and the vehicle state is the one before. *)
Theorem set_mode_same_mode_noop s :
  value (set_mode init_returns (control_mode s) s) = true /\
  state (set_mode init_returns (control_mode s) s) = s /\
  trace (set_mode init_returns (control_mode s) s) = [].
Proof. rewrite set_mode_same. repeat split. Qed.

(** C4. When the requested mode has no case in the switch (the current mode
    being one that has), or when its init routine answers [false], [set_mode]
    returns [false], leaves the vehicle state (so [control_mode] and the
    notify flag) as it was, writes exactly one error record, which names the
    requested mode, and makes no cleanup, mode-log or fence call. *)
Theorem set_mode_failure mode s :
  (init_case mode = None /\ init_case (control_mode s) <> None) \/
  (mode <> control_mode s /\
   exists f, init_case mode = Some f /\
             init_returns f (negb (motors_armed s)) s = false) ->
  value (set_mode init_returns mode s) = false /\
  state (set_mode init_returns mode s) = s /\
  error_records (trace (set_mode init_returns mode s)) =
    [obs (control_mode s) (Log_Write_Error ERROR_SUBSYSTEM_FLIGHT_MODE mode)] /\
  Forall (fun o => is_transition_effect (what o) = false)
         (trace (set_mode init_returns mode s)).
Proof.
  intros [[Hnone Hknown] | [Hne (f & Hcase & Hret)]].
  - rewrite (set_mode_default mode s (init_case_same_mode mode s Hnone Hknown) Hnone).
    repeat split. repeat constructor.
  - rewrite (set_mode_refused mode s f Hne Hcase Hret).
    repeat split. repeat constructor.
Qed.

(** C3. A successful change from the current mode [old] to a different mode
    makes its calls in this order: the init routine of the new mode, which
    answered [true]; then the calls of [exit_mode old mode], all of them
    cleanup calls that see [control_mode = old], the takeoff stop among them;
    then, after [control_mode] has been written, the mode log and the fence
    call, which see the new mode.  Every call sees the old or the new mode;
    the state returned holds the new mode, and the notify flag is the one
    [notify_flight_mode] gives for the new mode. *)
Theorem set_mode_exit_before_commit mode s :
  mode <> control_mode s ->
  value (set_mode init_returns mode s) = true ->
  exists f cleanup after,
    init_case mode = Some f /\
    init_returns f (negb (motors_armed s)) s = true /\
    trace (set_mode init_returns mode s) =
      obs (control_mode s) (init f (negb (motors_armed s))) :: cleanup ++ after /\
    cleanup = trace (exit_mode (control_mode s) mode s) /\
    Forall (fun o => seen_mode o = control_mode s /\ is_cleanup (what o) = true)
           cleanup /\
    In (obs (control_mode s) takeoff_stop) cleanup /\
    after = obs mode (Log_Write_Mode mode)
            :: (if AC_FENCE then [obs mode fence_manual_recovery_start] else []) /\
    Forall (fun o => seen_mode o = control_mode s \/ seen_mode o = mode)
           (trace (set_mode init_returns mode s)) /\
    control_mode (state (set_mode init_returns mode s)) = mode /\
    autopilot_mode (state (set_mode init_returns mode s)) =
      autopilot_mode (state (notify_flight_mode mode s)).
Proof.
  intros Hne Hval.
  destruct (init_case mode) as [f |] eqn:Hcase.
  2: { rewrite (set_mode_default mode s Hne Hcase) in Hval. discriminate. }
  destruct (init_returns f (negb (motors_armed s)) s) eqn:Hret.
  2: { rewrite (set_mode_refused mode s f Hne Hcase Hret) in Hval. discriminate. }
  rewrite (set_mode_accepted mode s f Hne Hcase Hret).
  destruct (exit_mode_cleanup (control_mode s) mode s) as [_ Hall].
  exists f, (trace (exit_mode (control_mode s) mode s)).
  eexists. cbn [trace state].
  split; [reflexivity |]. split; [exact Hret |].
  split; [reflexivity |]. split; [reflexivity |].
  split; [exact Hall |]. split; [apply exit_mode_stops_takeoff |].
  split; [reflexivity |]. split.
  - constructor; [left; reflexivity |].
    apply Forall_app. split.
    + eapply Forall_impl; [| exact Hall]. intros o [Ho _]. left. exact Ho.
    + destruct AC_FENCE; repeat constructor; right; reflexivity.
  - split.
    + rewrite notify_flight_mode_keeps_mode. reflexivity.
    + apply notify_flight_mode_flag.
Qed.

(** C6. Without a ground-station request, arming is allowed exactly in ACRO,
    STABILIZE, STAB_RUAS, LOITER, ALT_HOLD, POSHOLD, DRIFT, SPORT and THROW;
    GUIDED allows arming from the ground station and not otherwise. *)
Theorem mode_allows_arming_table :
  NoDup mode_labels ->
  (forall mode,
     mode_allows_arming mode false = true <->
     In mode [ACRO; STABILIZE; STAB_RUAS; LOITER; ALT_HOLD; POSHOLD; DRIFT;
              SPORT; THROW]) /\
  mode_allows_arming GUIDED true = true /\
  mode_allows_arming GUIDED false = false.
Proof.
  intro Hnd.
  assert (Hiff : forall mode,
     mode_allows_arming mode false = true <->
     In mode [ACRO; STABILIZE; STAB_RUAS; LOITER; ALT_HOLD; POSHOLD; DRIFT;
              SPORT; THROW]).
  { intro mode. unfold mode_allows_arming.
    match goal with
    | |- (if ?b then true else false) = true <-> _ =>
        replace (if b then true else false) with b by (destruct b; reflexivity)
    end.
    rewrite !orb_true_iff, andb_false_l, manual_throttle_iff, !Z.eqb_eq.
    simpl. split; intro H; intuition (try discriminate; auto). }
  split; [exact Hiff |]. split.
  - unfold mode_allows_arming. rewrite Z.eqb_refl, andb_true_l.
    rewrite !orb_true_r. reflexivity.
  - destruct (mode_allows_arming GUIDED false) eqn:E; [| reflexivity].
    apply Hiff in E. simpl in E.
    pose proof (labels_differ 6 2 Hnd eq_refl eq_refl eq_refl) as H1.
    pose proof (labels_differ 6 0 Hnd eq_refl eq_refl eq_refl) as H2.
    pose proof (labels_differ 6 1 Hnd eq_refl eq_refl eq_refl) as H3.
    pose proof (labels_differ 6 7 Hnd eq_refl eq_refl eq_refl) as H4.
    pose proof (labels_differ 6 3 Hnd eq_refl eq_refl eq_refl) as H5.
    pose proof (labels_differ 6 15 Hnd eq_refl eq_refl eq_refl) as H6.
    pose proof (labels_differ 6 11 Hnd eq_refl eq_refl eq_refl) as H7.
    pose proof (labels_differ 6 12 Hnd eq_refl eq_refl eq_refl) as H8.
    pose proof (labels_differ 6 17 Hnd eq_refl eq_refl eq_refl) as H9.
    simpl in H1, H2, H3, H4, H5, H6, H7, H8, H9.
    intuition congruence.
Qed.

(** C8. Among the calls of [exit_mode old new] the throttle pre-load occurs
    once, with the pilot's throttle input, when the old mode has a manual
    throttle, the new one has not, the motors are armed and the vehicle has
    not landed, and does not occur otherwise.  So STABILIZE to ALT_HOLD, armed
    and flying, pre-loads once, and STABILIZE to ACRO never does. *)
Theorem exit_mode_throttle_preload :
  NoDup mode_labels ->
  (forall old new s,
     throttle_preloads (trace (exit_mode old new s)) =
     if mode_has_manual_throttle old && negb (mode_has_manual_throttle new)
        && motors_armed s && negb (land_complete s)
     then [obs (control_mode s)
               (set_accel_throttle_I_from_pilot_throttle (control_in s))]
     else []) /\
  (forall s,
     motors_armed s = true -> land_complete s = false ->
     throttle_preloads (trace (exit_mode STABILIZE ALT_HOLD s)) =
     [obs (control_mode s)
          (set_accel_throttle_I_from_pilot_throttle (control_in s))]) /\
  (forall s, throttle_preloads (trace (exit_mode STABILIZE ACRO s)) = []).
Proof.
  intro Hnd.
  assert (Hstab : mode_has_manual_throttle STABILIZE = true)
    by (apply manual_throttle_iff; tauto).
  assert (Hacro : mode_has_manual_throttle ACRO = true)
    by (apply manual_throttle_iff; tauto).
  split; [exact exit_mode_preloads |]. split.
  - intros s Harmed Hland.
    rewrite exit_mode_preloads, Hstab, (alt_hold_not_manual Hnd), Harmed, Hland.
    reflexivity.
  - intro s. rewrite exit_mode_preloads, Hstab, Hacro. reflexivity.
Qed.

End Facts.

(** ** The claims at the sample configuration *)

Lemma heli_labels_distinct : NoDup (mode_labels (D := Samples.heli_defines)).
Proof.
  unfold mode_labels. simpl.
  repeat (constructor; [simpl; intuition discriminate |]).
  constructor.
Qed.

(** Armed in STABILIZE, LOITER is refused by its init routine, and 99 is
    not a mode. *)
Lemma set_mode_failure_witness :
  (value (set_mode (D := Samples.heli_defines) Samples.gps_missing 5
                   Samples.flying_stabilize) = false /\
   state (set_mode (D := Samples.heli_defines) Samples.gps_missing 5
                   Samples.flying_stabilize) = Samples.flying_stabilize /\
   error_records (trace (set_mode (D := Samples.heli_defines) Samples.gps_missing 5
                                  Samples.flying_stabilize)) =
     [obs 0 (Log_Write_Error ERROR_SUBSYSTEM_FLIGHT_MODE 5)] /\
   Forall (fun o => is_transition_effect (what o) = false)
          (trace (set_mode (D := Samples.heli_defines) Samples.gps_missing 5
                           Samples.flying_stabilize))) /\
  (value (set_mode (D := Samples.heli_defines) Samples.gps_missing 99
                   Samples.flying_stabilize) = false /\
   state (set_mode (D := Samples.heli_defines) Samples.gps_missing 99
                   Samples.flying_stabilize) = Samples.flying_stabilize /\
   error_records (trace (set_mode (D := Samples.heli_defines) Samples.gps_missing 99
                                  Samples.flying_stabilize)) =
     [obs 0 (Log_Write_Error ERROR_SUBSYSTEM_FLIGHT_MODE 99)] /\
   Forall (fun o => is_transition_effect (what o) = false)
          (trace (set_mode (D := Samples.heli_defines) Samples.gps_missing 99
                           Samples.flying_stabilize))).
Proof.
  split.
  - apply (@set_mode_failure Samples.heli_defines Samples.gps_missing 5
                             Samples.flying_stabilize).
    right. split; [discriminate |].
    exists loiter_init. split; reflexivity.
  - apply (@set_mode_failure Samples.heli_defines Samples.gps_missing 99
                             Samples.flying_stabilize).
    left. split; [reflexivity | discriminate].
Defined.

(** Flying a mission in AUTO, the switch to ALT_HOLD succeeds. *)
Lemma set_mode_exit_before_commit_witness :
  exists f cleanup after,
    init_case (D := Samples.heli_defines) 2 = Some f /\
    Samples.gps_missing f false Samples.flying_auto = true /\
    trace (set_mode (D := Samples.heli_defines) Samples.gps_missing 2
                    Samples.flying_auto) =
      obs 3 (init f false) :: cleanup ++ after /\
    cleanup = trace (exit_mode (D := Samples.heli_defines) 3 2 Samples.flying_auto) /\
    Forall (fun o => seen_mode o = 3 /\ is_cleanup (what o) = true) cleanup /\
    In (obs 3 takeoff_stop) cleanup /\
    after = [obs 2 (Log_Write_Mode 2); obs 2 fence_manual_recovery_start] /\
    Forall (fun o => seen_mode o = 3 \/ seen_mode o = 2)
           (trace (set_mode (D := Samples.heli_defines) Samples.gps_missing 2
                            Samples.flying_auto)) /\
    control_mode (state (set_mode (D := Samples.heli_defines) Samples.gps_missing 2
                                  Samples.flying_auto)) = 2 /\
    autopilot_mode (state (set_mode (D := Samples.heli_defines)
                                    Samples.gps_missing 2 Samples.flying_auto)) =
      false.
Proof.
  apply (@set_mode_exit_before_commit Samples.heli_defines Samples.gps_missing 2
                                      Samples.flying_auto).
  - discriminate.
  - reflexivity.
Defined.

Lemma mode_allows_arming_table_witness :
  (forall mode,
     mode_allows_arming (D := Samples.heli_defines) mode false = true <->
     In mode [1; 0; 19; 5; 2; 16; 11; 13; 18]) /\
  mode_allows_arming (D := Samples.heli_defines) 4 true = true /\
  mode_allows_arming (D := Samples.heli_defines) 4 false = false.
Proof.
  apply (@mode_allows_arming_table Samples.heli_defines).
  exact heli_labels_distinct.
Defined.

Lemma exit_mode_throttle_preload_witness :
  throttle_preloads
    (trace (exit_mode (D := Samples.heli_defines) 0 2 Samples.flying_stabilize)) =
  [obs 0 (set_accel_throttle_I_from_pilot_throttle 400)] /\
  throttle_preloads
    (trace (exit_mode (D := Samples.heli_defines) 0 1 Samples.flying_stabilize)) = [].
Proof.
  destruct (@exit_mode_throttle_preload Samples.heli_defines heli_labels_distinct)
    as (_ & Hstab & Hacro).
  split.
  - apply (Hstab Samples.flying_stabilize); reflexivity.
  - apply (Hacro Samples.flying_stabilize).
Defined.

End ModeFacts.

(** * Facts about the avoidance manoeuvre *)

Module AvoidanceFacts.

Import Avoidance.
Local Open Scope R_scope.

Lemma ltb_true_iff a b : ltb a b = true <-> a < b.
Proof.
  unfold ltb. destruct (Rlt_dec a b); split; intro H;
    try reflexivity; try assumption; try discriminate; contradiction.
Qed.

Lemma ltb_false_iff a b : ltb a b = false <-> b <= a.
Proof.
  unfold ltb. destruct (Rlt_dec a b); split; intro H;
    try reflexivity; try discriminate; lra.
Qed.

Lemma track_condition s :
  ltb (Rabs (_trafic_angle s)) 70 && ltb 50 (_trafic_distance s)
  && ltb (_trafic_distance s) 1000 = true <-> in_track_zone s.
Proof.
  unfold in_track_zone. rewrite !andb_true_iff, !ltb_true_iff. tauto.
Qed.

Lemma avoid_condition s :
  ltb (Rabs (_trafic_angle s)) 70 && ltb 50 (_trafic_distance s)
  && ltb (_trafic_distance s) 700 = true <-> in_avoid_zone s.
Proof.
  unfold in_avoid_zone. rewrite !andb_true_iff, !ltb_true_iff. tauto.
Qed.

Lemma floor_distance_max d : floor_distance d = Rmax d safety_bubble.
Proof.
  unfold floor_distance, Rmax.
  destruct (ltb d safety_bubble) eqn:E.
  - apply ltb_true_iff in E. destruct (Rle_dec d safety_bubble); lra.
  - apply ltb_false_iff in E. destruct (Rle_dec d safety_bubble); lra.
Qed.

Section Maneuver.

Variable atanf : R -> R.

Lemma avoidance_maneuver_inside p s :
  in_avoid_zone s ->
  avoidance_maneuver atanf p s =
  Log_Write_Avoidance
    (mkCopter (_trafic_angle s) (floor_distance (_trafic_distance s))
       (_rel_v s) (_rel_d s) (trafic_angle s) (acro_yaw_p s)
       (ltb (Rabs (_trafic_angle s)) 70 && ltb 50 (_trafic_distance s)
        && ltb (_trafic_distance s) 1000)
       true
       (scale_angle
          (away_from (y (_rel_d s))
             (limit_angle
                (atanf (avoidance_accel_roll (_rel_v s)
                          (floor_distance (_trafic_distance s)) / 9.81)))))
       (scale_angle
          (away_from (x (_rel_d s)) (limit_angle (atanf (p / 9.81)))))
       (avoidance_logs s)).
Proof.
  intro Hz. apply avoid_condition in Hz.
  unfold avoidance_maneuver. rewrite Hz. reflexivity.
Qed.

Lemma avoidance_maneuver_outside p s :
  ~ in_avoid_zone s ->
  avoidance_maneuver atanf p s =
  Log_Write_Avoidance
    (mkCopter (_trafic_angle s) (_trafic_distance s)
       (_rel_v s) (_rel_d s) (trafic_angle s) (acro_yaw_p s)
       (ltb (Rabs (_trafic_angle s)) 70 && ltb 50 (_trafic_distance s)
        && ltb (_trafic_distance s) 1000)
       false (avoidance_roll_angle_cd s) (avoidance_pitch_angle_cd s)
       (avoidance_logs s)).
Proof.
  intro Hz. unfold avoidance_maneuver.
  destruct (ltb (Rabs (_trafic_angle s)) 70 && ltb 50 (_trafic_distance s)
            && ltb (_trafic_distance s) 700) eqn:E; [| reflexivity].
  apply avoid_condition in E. contradiction.
Qed.

Lemma do_track_flag p s :
  do_track_maneuver (avoidance_maneuver atanf p s) = true <-> in_track_zone s.
Proof.
  rewrite <- track_condition. unfold avoidance_maneuver.
  destruct (ltb (Rabs (_trafic_angle s)) 70 && ltb 50 (_trafic_distance s)
            && ltb (_trafic_distance s) 700); reflexivity.
Qed.

Lemma do_avoid_flag p s :
  do_avoid_maneuver (avoidance_maneuver atanf p s) = true <-> in_avoid_zone s.
Proof.
  rewrite <- avoid_condition. unfold avoidance_maneuver.
  destruct (ltb (Rabs (_trafic_angle s)) 70 && ltb 50 (_trafic_distance s)
            && ltb (_trafic_distance s) 700); simpl; split;
    intro; try reflexivity; try discriminate.
Qed.

End Maneuver.

(** ** Numbers *)

Lemma sqrt_bubble_bounds : 22 < sqrt safety_bubble < 23.
Proof.
  unfold safety_bubble.
  rewrite <- (sqrt_square 22), <- (sqrt_square 23) by lra.
  split; apply sqrt_lt_1_alt; lra.
Qed.

Lemma floor_distance_600 : floor_distance 600 = 600.
Proof.
  unfold floor_distance.
  replace (ltb 600 safety_bubble) with false; [reflexivity |].
  symmetry. apply ltb_false_iff. unfold safety_bubble. lra.
Qed.

(** At distance 600 the code's response lies between 0.36 and 0.38, and the
    quotient without the factor 10 below 0.038. *)
Lemma response_600_bounds :
  36 / 100 < response 600 < 38 / 100 /\
  avoidance_gain / (600 * sqrt safety_bubble - 1) < 38 / 1000.
Proof.
  pose proof sqrt_bubble_bounds as [Hlo Hhi].
  unfold response, avoidance_gain.
  set (den := 600 * sqrt safety_bubble - 1).
  assert (Hden : 13199 < den < 13799) by (unfold den; lra).
  assert (Hinv : / 13799 < / den < / 13199).
  { split; apply Rinv_lt_contravar; nra. }
  unfold Rdiv. nra.
Qed.

Lemma atan_never_limited a : limit_angle (atan a) = atan a.
Proof.
  unfold limit_angle.
  replace (ltb 5 (Rabs (atan a))) with false; [reflexivity |].
  symmetry. apply ltb_false_iff.
  pose proof (atan_bound a) as [Hlo Hhi]. pose proof PI_4.
  apply Rabs_le. lra.
Qed.

Lemma atan_above_1 a : 1 < a -> PI / 4 < atan a.
Proof. intro H. rewrite <- atan_1. apply atan_increasing. exact H. Qed.

Lemma PI_above_3 : 3 < PI.
Proof. pose proof PI2_3_2. lra. Qed.

Lemma first_contact_in_zone : in_avoid_zone Samples.first_contact.
Proof.
  unfold in_avoid_zone, Samples.first_contact. simpl.
  rewrite Rabs_R0. lra.
Qed.

Lemma mirrored_contact_in_zone : in_avoid_zone Samples.mirrored_contact.
Proof.
  unfold in_avoid_zone, Samples.mirrored_contact. simpl.
  rewrite Rabs_R0. lra.
Qed.

(** The bank angle the code computes at [first_contact] is above one radian. *)
Lemma first_contact_raw_angle :
  1 < avoidance_accel_roll (_rel_v Samples.first_contact) 600 / 9.81.
Proof.
  unfold avoidance_accel_roll, Samples.first_contact. simpl.
  pose proof response_600_bounds as [[Hlo Hhi] _]. lra.
Qed.

(** ** The claims *)

(** C7. The tracking flag is set exactly when the bearing is within 70 on
    either side and the distance lies strictly between 50 and 1000, the
    avoidance flag exactly when the bearing is within 70 and the distance
    strictly between 50 and 700.  Bearing 0 at distance 600 avoids; at 750 it
    tracks without avoiding; bearing 80 does neither, at any distance. *)
Theorem avoidance_zone_flags (atanf : R -> R) (p : R) (s : Copter) :
  (do_track_maneuver (avoidance_maneuver atanf p s) = true <->
   Rabs (_trafic_angle s) < 70 /\ 50 < _trafic_distance s < 1000) /\
  (do_avoid_maneuver (avoidance_maneuver atanf p s) = true <->
   Rabs (_trafic_angle s) < 70 /\ 50 < _trafic_distance s < 700) /\
  do_avoid_maneuver (avoidance_maneuver atanf p (with_track 0 600 s)) = true /\
  do_avoid_maneuver (avoidance_maneuver atanf p (with_track 0 750 s)) = false /\
  do_track_maneuver (avoidance_maneuver atanf p (with_track 0 750 s)) = true /\
  (forall d,
     do_avoid_maneuver (avoidance_maneuver atanf p (with_track 80 d s)) = false /\
     do_track_maneuver (avoidance_maneuver atanf p (with_track 80 d s)) = false).
Proof.
  split; [apply do_track_flag |]. split; [apply do_avoid_flag |].
  assert (H80 : Rabs 80 = 80) by (apply Rabs_pos_eq; lra).
  split; [| split; [| split]].
  - apply do_avoid_flag. unfold in_avoid_zone. simpl. rewrite Rabs_R0. lra.
  - apply not_true_is_false. rewrite do_avoid_flag.
    unfold in_avoid_zone. simpl. lra.
  - apply do_track_flag. unfold in_track_zone. simpl. rewrite Rabs_R0. lra.
  - intro d. split; apply not_true_is_false.
    + rewrite do_avoid_flag. unfold in_avoid_zone. simpl. lra.
    + rewrite do_track_flag. unfold in_track_zone. simpl. lra.
Qed.

(** C2, as the code has it.  Outside the narrow zone the avoidance flag is
    cleared and the roll and pitch corrections keep the values they had before
    the call.  The two flags always, and the roll correction inside the narrow
    zone, depend on the bearing, the distance and the relative vectors of the
    current call only. *)
Theorem avoidance_outside_zone_keeps_corrections (atanf : R -> R) :
  (forall p s,
     ~ (Rabs (_trafic_angle s) < 70 /\ 50 < _trafic_distance s < 700) ->
     do_avoid_maneuver (avoidance_maneuver atanf p s) = false /\
     avoidance_roll_angle_cd (avoidance_maneuver atanf p s) =
       avoidance_roll_angle_cd s /\
     avoidance_pitch_angle_cd (avoidance_maneuver atanf p s) =
       avoidance_pitch_angle_cd s) /\
  (forall p1 p2 s1 s2,
     _trafic_angle s1 = _trafic_angle s2 ->
     _trafic_distance s1 = _trafic_distance s2 ->
     _rel_v s1 = _rel_v s2 -> _rel_d s1 = _rel_d s2 ->
     do_track_maneuver (avoidance_maneuver atanf p1 s1) =
       do_track_maneuver (avoidance_maneuver atanf p2 s2) /\
     do_avoid_maneuver (avoidance_maneuver atanf p1 s1) =
       do_avoid_maneuver (avoidance_maneuver atanf p2 s2) /\
     (Rabs (_trafic_angle s1) < 70 /\ 50 < _trafic_distance s1 < 700 ->
      avoidance_roll_angle_cd (avoidance_maneuver atanf p1 s1) =
        avoidance_roll_angle_cd (avoidance_maneuver atanf p2 s2))).
Proof.
  split.
  - intros p s Hout.
    rewrite (avoidance_maneuver_outside atanf p s Hout). repeat split.
  - intros p1 p2 s1 s2 Ha Hd Hv Hr.
    assert (Hz : in_avoid_zone s1 <-> in_avoid_zone s2)
      by (unfold in_avoid_zone; rewrite Ha, Hd; tauto).
    split; [| split].
    + destruct (do_track_maneuver (avoidance_maneuver atanf p2 s2)) eqn:E.
      * apply do_track_flag. apply do_track_flag in E.
        unfold in_track_zone in *. rewrite Ha, Hd. exact E.
      * apply not_true_is_false. intro E1. apply do_track_flag in E1.
        apply not_true_iff_false in E. apply E. apply do_track_flag.
        unfold in_track_zone in *. rewrite <- Ha, <- Hd. exact E1.
    + destruct (do_avoid_maneuver (avoidance_maneuver atanf p2 s2)) eqn:E.
      * apply do_avoid_flag. apply Hz. apply (do_avoid_flag atanf p2 s2). exact E.
      * apply not_true_is_false. intro E1. apply do_avoid_flag in E1.
        apply not_true_iff_false in E. apply E. apply do_avoid_flag.
        apply Hz. exact E1.
    + intro Hin.
      rewrite (avoidance_maneuver_inside atanf p1 s1 Hin).
      rewrite (avoidance_maneuver_inside atanf p2 s2 (proj1 Hz Hin)).
      simpl. rewrite Hd, Hv, Hr. reflexivity.
Qed.

(** The roll correction the code leaves at [first_contact]. *)
Lemma first_contact_roll :
  avoidance_roll_angle_cd (avoidance_maneuver atan 0 Samples.first_contact) =
  atan (avoidance_accel_roll (_rel_v Samples.first_contact) 600 / 9.81) * -10000.
Proof.
  rewrite (avoidance_maneuver_inside atan 0 _ first_contact_in_zone).
  cbn [Log_Write_Avoidance avoidance_roll_angle_cd].
  rewrite atan_never_limited.
  change (_trafic_distance Samples.first_contact) with 600.
  rewrite floor_distance_600.
  unfold scale_angle, away_from.
  change (y (_rel_d Samples.first_contact)) with 0.
  replace (ltb 0 0) with false; [reflexivity |].
  symmetry. apply ltb_false_iff. lra.
Qed.

Lemma first_contact_roll_size :
  7500 < Rabs (avoidance_roll_angle_cd
                 (avoidance_maneuver atan 0 Samples.first_contact)).
Proof.
  rewrite first_contact_roll.
  pose proof (atan_above_1 _ first_contact_raw_angle) as Hraw.
  pose proof PI_above_3 as Hpi.
  rewrite Rabs_left1 by nra. nra.
Qed.

(** C2 fails as stated: after a call inside the narrow zone, a call with the
    traffic at 750, outside it, clears the flag and still holds the roll
    correction of the first call, which is not zero. *)
Lemma stale_correction_counterexample :
  ~ in_avoid_zone
      (with_track 0 750 (avoidance_maneuver atan 0 Samples.first_contact)) /\
  do_avoid_maneuver
    (avoidance_maneuver atan 0
       (with_track 0 750 (avoidance_maneuver atan 0 Samples.first_contact))) = false /\
  avoidance_roll_angle_cd
    (avoidance_maneuver atan 0
       (with_track 0 750 (avoidance_maneuver atan 0 Samples.first_contact))) =
  avoidance_roll_angle_cd (avoidance_maneuver atan 0 Samples.first_contact) /\
  avoidance_roll_angle_cd
    (avoidance_maneuver atan 0
       (with_track 0 750 (avoidance_maneuver atan 0 Samples.first_contact))) <> 0.
Proof.
  assert (Hout : ~ in_avoid_zone
            (with_track 0 750 (avoidance_maneuver atan 0 Samples.first_contact))).
  { unfold in_avoid_zone. simpl. lra. }
  split; [exact Hout |].
  rewrite (avoidance_maneuver_outside atan 0 _ Hout).
  cbn [Log_Write_Avoidance do_avoid_maneuver avoidance_roll_angle_cd with_track].
  split; [reflexivity |]. split; [reflexivity |].
  pose proof first_contact_roll_size as Hsize.
  intro H0. rewrite H0, Rabs_R0 in Hsize. lra.
Qed.

Lemma avoidance_outside_zone_keeps_corrections_witness :
  do_avoid_maneuver
    (avoidance_maneuver atan 0
       (with_track 0 750 (avoidance_maneuver atan 0 Samples.first_contact))) = false /\
  avoidance_roll_angle_cd
    (avoidance_maneuver atan 0
       (with_track 0 750 (avoidance_maneuver atan 0 Samples.first_contact))) =
  avoidance_roll_angle_cd
    (with_track 0 750 (avoidance_maneuver atan 0 Samples.first_contact)) /\
  avoidance_pitch_angle_cd
    (avoidance_maneuver atan 0
       (with_track 0 750 (avoidance_maneuver atan 0 Samples.first_contact))) =
  avoidance_pitch_angle_cd
    (with_track 0 750 (avoidance_maneuver atan 0 Samples.first_contact)).
Proof.
  apply (proj1 (avoidance_outside_zone_keeps_corrections atan)).
  unfold with_track. simpl. lra.
Defined.

(** C9, as the code has it.  Inside the narrow zone the distance is first
    raised to the safety bubble, the response is ten times the gain over
    (distance * sqrt bubble - 1), the roll acceleration is the x component of
    the relative velocity times that response, and the roll correction is
    computed from the arctangent of that acceleration over 9.81. *)
Theorem response_formula (atanf : R -> R) (p : R) (s : Copter) :
  Rabs (_trafic_angle s) < 70 /\ 50 < _trafic_distance s < 700 ->
  _trafic_distance (avoidance_maneuver atanf p s) =
    Rmax (_trafic_distance s) safety_bubble /\
  response (_trafic_distance (avoidance_maneuver atanf p s)) =
    10 * avoidance_gain /
    (Rmax (_trafic_distance s) safety_bubble * sqrt safety_bubble - 1) /\
  avoidance_accel_roll (_rel_v s)
                       (_trafic_distance (avoidance_maneuver atanf p s)) =
    x (_rel_v s) *
    (10 * 500 / (Rmax (_trafic_distance s) 500 * sqrt 500 - 1)) /\
  avoidance_roll_angle_cd (avoidance_maneuver atanf p s) =
    scale_angle
      (away_from (y (_rel_d s))
         (limit_angle
            (atanf (x (_rel_v s) *
                    (10 * 500 / (Rmax (_trafic_distance s) 500 * sqrt 500 - 1))
                    / 9.81)))).
Proof.
  intro Hin. change (in_avoid_zone s) in Hin.
  rewrite (avoidance_maneuver_inside atanf p s Hin).
  cbn [Log_Write_Avoidance _trafic_distance avoidance_roll_angle_cd].
  unfold avoidance_accel_roll, response.
  rewrite floor_distance_max.
  unfold safety_bubble, avoidance_gain. repeat split.
Qed.

Lemma response_formula_witness :
  _trafic_distance (avoidance_maneuver atan 0 Samples.first_contact) =
    Rmax 600 safety_bubble /\
  response (_trafic_distance (avoidance_maneuver atan 0 Samples.first_contact)) =
    10 * avoidance_gain / (Rmax 600 safety_bubble * sqrt safety_bubble - 1) /\
  avoidance_accel_roll (_rel_v Samples.first_contact)
    (_trafic_distance (avoidance_maneuver atan 0 Samples.first_contact)) =
    100 * (10 * 500 / (Rmax 600 500 * sqrt 500 - 1)) /\
  avoidance_roll_angle_cd (avoidance_maneuver atan 0 Samples.first_contact) =
    scale_angle
      (away_from 0
         (limit_angle
            (atan (100 * (10 * 500 / (Rmax 600 500 * sqrt 500 - 1)) / 9.81)))).
Proof.
  apply (response_formula atan 0 Samples.first_contact).
  unfold Samples.first_contact. simpl. rewrite Rabs_R0. lra.
Defined.

(** C9 fails as stated: at [first_contact] the response used is not
    gain / (distance * sqrt bubble - 1), and the roll correction differs from
    the one that quotient would give. *)
Lemma response_without_factor_counterexample :
  in_avoid_zone Samples.first_contact /\
  response (floor_distance (_trafic_distance Samples.first_contact)) <>
    avoidance_gain /
    (floor_distance (_trafic_distance Samples.first_contact)
     * sqrt safety_bubble - 1) /\
  avoidance_roll_angle_cd (avoidance_maneuver atan 0 Samples.first_contact) <>
    scale_angle
      (away_from (y (_rel_d Samples.first_contact))
         (limit_angle
            (atan (x (_rel_v Samples.first_contact) *
                   (avoidance_gain /
                    (floor_distance (_trafic_distance Samples.first_contact)
                     * sqrt safety_bubble - 1)) / 9.81)))).
Proof.
  pose proof response_600_bounds as [[Hlo Hhi] Hplain].
  split; [exact first_contact_in_zone |].
  change (_trafic_distance Samples.first_contact) with 600.
  rewrite floor_distance_600.
  split; [lra |].
  rewrite first_contact_roll, atan_never_limited.
  change (y (_rel_d Samples.first_contact)) with 0.
  change (x (_rel_v Samples.first_contact)) with 100.
  unfold scale_angle, away_from.
  replace (ltb 0 0) with false by (symmetry; apply ltb_false_iff; lra).
  unfold avoidance_accel_roll.
  change (x (_rel_v Samples.first_contact)) with 100.
  set (plain := avoidance_gain / (600 * sqrt safety_bubble - 1)) in *.
  assert (Hlt : atan (100 * plain / 9.81) < atan (100 * response 600 / 9.81))
    by (apply atan_increasing; lra).
  lra.
Qed.

(** C10 against the code.  With a true arctangent the angle is in radians
    and below 5, so line 395 never assigns 5 and the sign of the roll
    correction follows the sign of the bank angle: two inputs inside the narrow
    zone with the same distance and displacement and opposite x velocities get
    opposite roll corrections.  At [first_contact] and [mirrored_contact] the
    displacement is the same, the bank angles are above 45 degrees to either
    side, and the corrections are below -7500 and above 7500.  The defect is
    the one of C1. *)
Theorem roll_sign_follows_bank_angle :
  (forall p1 p2 s1 s2,
     Rabs (_trafic_angle s1) < 70 /\ 50 < _trafic_distance s1 < 700 ->
     Rabs (_trafic_angle s2) < 70 /\ 50 < _trafic_distance s2 < 700 ->
     _trafic_distance s1 = _trafic_distance s2 ->
     _rel_d s1 = _rel_d s2 ->
     x (_rel_v s2) = - x (_rel_v s1) ->
     avoidance_roll_angle_cd (avoidance_maneuver atan p2 s2) =
     - avoidance_roll_angle_cd (avoidance_maneuver atan p1 s1)) /\
  _rel_d Samples.first_contact = _rel_d Samples.mirrored_contact /\
  45 < atan (avoidance_accel_roll (_rel_v Samples.first_contact) 600 / 9.81)
       * 180 / PI /\
  atan (avoidance_accel_roll (_rel_v Samples.mirrored_contact) 600 / 9.81)
  * 180 / PI < -45 /\
  avoidance_roll_angle_cd (avoidance_maneuver atan 0 Samples.first_contact)
    < -7500 /\
  7500 < avoidance_roll_angle_cd
           (avoidance_maneuver atan 0 Samples.mirrored_contact).
Proof.
  assert (Hodd : forall p1 p2 s1 s2,
     in_avoid_zone s1 -> in_avoid_zone s2 ->
     _trafic_distance s1 = _trafic_distance s2 ->
     _rel_d s1 = _rel_d s2 ->
     x (_rel_v s2) = - x (_rel_v s1) ->
     avoidance_roll_angle_cd (avoidance_maneuver atan p2 s2) =
     - avoidance_roll_angle_cd (avoidance_maneuver atan p1 s1)).
  { intros p1 p2 s1 s2 Hin1 Hin2 Hd Hr Hv.
    rewrite (avoidance_maneuver_inside atan p1 s1 Hin1).
    rewrite (avoidance_maneuver_inside atan p2 s2 Hin2).
    cbn [Log_Write_Avoidance avoidance_roll_angle_cd].
    rewrite !atan_never_limited, <- Hd, <- Hr.
    unfold avoidance_accel_roll. rewrite Hv.
    replace (- x (_rel_v s1) * response (floor_distance (_trafic_distance s1))
             / 9.81)
      with (- (x (_rel_v s1) * response (floor_distance (_trafic_distance s1))
               / 9.81)) by lra.
    rewrite atan_opp. unfold scale_angle, away_from.
    destruct (ltb (y (_rel_d s1)) 0); lra. }
  pose proof (atan_above_1 _ first_contact_raw_angle) as Hraw.
  pose proof PI_above_3 as Hpi3. pose proof PI_RGT_0 as Hpi.
  assert (Hfirst : avoidance_roll_angle_cd
                     (avoidance_maneuver atan 0 Samples.first_contact) < -7500).
  { rewrite first_contact_roll. lra. }
  split; [exact Hodd |]. split; [reflexivity |].
  split; [| split; [| split; [exact Hfirst |]]].
  - apply Rmult_lt_reg_r with PI; [exact Hpi |].
    unfold Rdiv at 1. rewrite Rmult_assoc, Rinv_l by lra. lra.
  - replace (avoidance_accel_roll (_rel_v Samples.mirrored_contact) 600 / 9.81)
      with (- (avoidance_accel_roll (_rel_v Samples.first_contact) 600 / 9.81))
      by (unfold avoidance_accel_roll, Samples.mirrored_contact,
            Samples.first_contact; simpl; lra).
    rewrite atan_opp.
    apply Rmult_lt_reg_r with PI; [exact Hpi |].
    unfold Rdiv at 1. rewrite Rmult_assoc, Rinv_l by lra. lra.
  - rewrite (Hodd 0 0 Samples.first_contact Samples.mirrored_contact
               first_contact_in_zone mirrored_contact_in_zone);
      [lra | reflexivity | reflexivity |].
    unfold Samples.mirrored_contact, Samples.first_contact. simpl. lra.
Qed.

Lemma roll_sign_follows_bank_angle_witness :
  avoidance_roll_angle_cd (avoidance_maneuver atan 0 Samples.mirrored_contact) =
  - avoidance_roll_angle_cd (avoidance_maneuver atan 0 Samples.first_contact).
Proof.
  apply (proj1 roll_sign_follows_bank_angle 0 0
           Samples.first_contact Samples.mirrored_contact).
  - unfold Samples.first_contact. simpl. rewrite Rabs_R0. lra.
  - unfold Samples.mirrored_contact. simpl. rewrite Rabs_R0. lra.
  - reflexivity.
  - reflexivity.
  - unfold Samples.mirrored_contact, Samples.first_contact. simpl. lra.
Defined.

(** C1 against the code.  With a true arctangent the angle is in radians and
    stays below 5, so it is never limited: inside the narrow zone the roll
    and pitch corrections have magnitude 10000 times the arctangent.  At [first_contact]
    the bank angle is above 45 degrees, the correction written is that angle
    in radians times -10000, and its magnitude is above 7500, not 500. *)
Theorem roll_correction_not_limited_to_five_degrees :
  (forall p s,
     Rabs (_trafic_angle s) < 70 /\ 50 < _trafic_distance s < 700 ->
     Rabs (avoidance_roll_angle_cd (avoidance_maneuver atan p s)) =
       10000 * Rabs (atan (avoidance_accel_roll (_rel_v s)
                             (floor_distance (_trafic_distance s)) / 9.81)) /\
     Rabs (avoidance_pitch_angle_cd (avoidance_maneuver atan p s)) =
       10000 * Rabs (atan (p / 9.81))) /\
  do_avoid_maneuver (avoidance_maneuver atan 0 Samples.first_contact) = true /\
  45 < atan (avoidance_accel_roll (_rel_v Samples.first_contact) 600 / 9.81)
       * 180 / PI /\
  avoidance_roll_angle_cd (avoidance_maneuver atan 0 Samples.first_contact) =
    atan (avoidance_accel_roll (_rel_v Samples.first_contact) 600 / 9.81)
    * -10000 /\
  7500 < Rabs (avoidance_roll_angle_cd
                 (avoidance_maneuver atan 0 Samples.first_contact)).
Proof.
  split; [| split; [| split; [| split]]].
  - intros p s Hin. change (in_avoid_zone s) in Hin.
    rewrite (avoidance_maneuver_inside atan p s Hin).
    cbn [Log_Write_Avoidance avoidance_roll_angle_cd avoidance_pitch_angle_cd].
    rewrite !atan_never_limited. unfold scale_angle, away_from.
    split.
    + destruct (ltb (y (_rel_d s)) 0).
      * rewrite Rabs_mult, Rabs_Ropp, (Rabs_left (-10000)) by lra. lra.
      * rewrite Rabs_mult, (Rabs_left (-10000)) by lra. lra.
    + destruct (ltb (x (_rel_d s)) 0).
      * rewrite Rabs_mult, Rabs_Ropp, (Rabs_left (-10000)) by lra. lra.
      * rewrite Rabs_mult, (Rabs_left (-10000)) by lra. lra.
  - apply do_avoid_flag. exact first_contact_in_zone.
  - pose proof (atan_above_1 _ first_contact_raw_angle) as Hraw.
    pose proof PI_RGT_0 as Hpi.
    apply Rmult_lt_reg_r with PI; [exact Hpi |].
    unfold Rdiv at 1. rewrite Rmult_assoc, Rinv_l by lra. lra.
  - exact first_contact_roll.
  - exact first_contact_roll_size.
Qed.

Lemma roll_correction_not_limited_witness :
  Rabs (avoidance_roll_angle_cd (avoidance_maneuver atan 0 Samples.first_contact)) =
    10000 * Rabs (atan (avoidance_accel_roll (_rel_v Samples.first_contact)
                          (floor_distance
                             (_trafic_distance Samples.first_contact)) / 9.81)) /\
  Rabs (avoidance_pitch_angle_cd (avoidance_maneuver atan 0 Samples.first_contact)) =
    10000 * Rabs (atan (0 / 9.81)).
Proof.
  apply (proj1 roll_correction_not_limited_to_five_degrees).
  unfold Samples.first_contact. simpl. rewrite Rabs_R0. lra.
Defined.

End AvoidanceFacts.

(** * More on mode switching *)

Module ModeExtras.

Import FlightMode Dispatch ModeFacts.
Local Open Scope Z_scope.

Lemma when_call b c s m :
  control_mode s = m ->
  when b (do_call c) s = mkResult tt s (if b then [obs m c] else []).
Proof. intros <-. destruct b; reflexivity. Qed.

Lemma call_run c s m :
  control_mode s = m -> do_call c s = mkResult tt s [obs m c].
Proof. intros <-. reflexivity. Qed.

Lemma bind_run {A B} (m : M A) (k : A -> M B) s a s1 t1 b s2 t2 :
  m s = mkResult a s1 t1 -> k a s1 = mkResult b s2 t2 ->
  (x <- m ;; k x) s = mkResult b s2 (t1 ++ t2).
Proof. intros Hm Hk. unfold bind. rewrite Hm. cbn. rewrite Hk. reflexivity. Qed.

Lemma bind_get_run {A B} (f : Copter -> A) (k : A -> M B) s b s2 t2 :
  k (f s) s = mkResult b s2 t2 ->
  (x <- get f ;; k x) s = mkResult b s2 t2.
Proof. intro Hk. unfold bind, get. cbn. rewrite Hk. reflexivity. Qed.

Lemma map_if {A B} (f : A -> B) (b : bool) (l1 l2 : list A) :
  map f (if b then l1 else l2) = if b then map f l1 else map f l2.
Proof. destruct b; reflexivity. Qed.

Section Extras.

Context {D : Defines}.
Variable init_returns : init_fn -> bool -> Copter -> bool.

Lemma mission_block_run old s :
  when ((old =? AUTO) || (old =? AUTO_RUAS))
       (running <- get mission_running ;;
        when running do_mission_stop ;;
        when MOUNT (do_call camera_mount_set_mode_to_default)) s =
  mkResult tt (after_exit old s)
    (if (old =? AUTO) || (old =? AUTO_RUAS)
     then (if mission_running s then [obs (control_mode s) mission_stop] else [])
          ++ (if MOUNT
              then [obs (control_mode s) camera_mount_set_mode_to_default]
              else [])
     else []).
Proof.
  unfold after_exit. destruct s as [cm ar lc mr ci ap]. cbn.
  destruct ((old =? AUTO) || (old =? AUTO_RUAS)); destruct mr; destruct MOUNT;
    reflexivity.
Qed.

Lemma preload_run (b : bool) s m c :
  control_mode s = m -> control_in s = c ->
  when b (c <- get control_in ;;
          do_call (set_accel_throttle_I_from_pilot_throttle c)) s =
  mkResult tt s
    (if b then [obs m (set_accel_throttle_I_from_pilot_throttle c)] else []).
Proof. intros <- <-. destruct b; reflexivity. Qed.

Lemma heli_block_run old new s m :
  control_mode s = m ->
  when HELI_FRAME
       (when (old =? ACRO)
             (do_call (use_flybar_passthrough false false) ;;
              do_call (set_acro_tail false)) ;;
        when (negb (mode_has_manual_throttle old))
             (if (new =? STABILIZE) || (new =? STAB_RUAS)
              then do_call (set_stab_col_ramp 1)
              else if new =? ACRO
                   then do_call (set_stab_col_ramp 0)
                   else ret tt) ;;
        do_call reset_radio_passthrough) s =
  mkResult tt s
    (if HELI_FRAME
     then (if old =? ACRO
           then [obs m (use_flybar_passthrough false false);
                 obs m (set_acro_tail false)]
           else [])
          ++ (if negb (mode_has_manual_throttle old)
              then if (new =? STABILIZE) || (new =? STAB_RUAS)
                   then [obs m (set_stab_col_ramp 1)]
                   else if new =? ACRO
                        then [obs m (set_stab_col_ramp 0)]
                        else []
              else [])
          ++ [obs m reset_radio_passthrough]
     else []).
Proof.
  intros <-.
  destruct HELI_FRAME; destruct (old =? ACRO);
    destruct (negb (mode_has_manual_throttle old));
    destruct ((new =? STABILIZE) || (new =? STAB_RUAS));
    destruct (new =? ACRO); reflexivity.
Qed.

(** [exit_mode], evaluated: the state it leaves and its calls in order. *)
Lemma exit_mode_run old new s :
  exit_mode old new s =
  mkResult tt (after_exit old s)
    (map (obs (control_mode s))
       ((if AUTOTUNE_ENABLED && (old =? AUTOTUNE) then [autotune_stop] else [])
        ++ (if (old =? AUTO) || (old =? AUTO_RUAS)
            then (if mission_running s then [mission_stop] else [])
                 ++ (if MOUNT then [camera_mount_set_mode_to_default] else [])
            else [])
        ++ (if old =? THROW then [throw_exit] else [])
        ++ (if mode_has_manual_throttle old
               && negb (mode_has_manual_throttle new)
               && motors_armed s && negb (land_complete s)
            then [set_accel_throttle_I_from_pilot_throttle (control_in s)]
            else [])
        ++ [takeoff_stop]
        ++ (if HELI_FRAME
            then (if old =? ACRO
                  then [use_flybar_passthrough false false; set_acro_tail false]
                  else [])
                 ++ (if negb (mode_has_manual_throttle old)
                     then if (new =? STABILIZE) || (new =? STAB_RUAS)
                          then [set_stab_col_ramp 1]
                          else if new =? ACRO then [set_stab_col_ramp 0] else []
                     else [])
                 ++ [reset_radio_passthrough]
            else []))).
Proof.
  rewrite !map_app, !map_if, !map_app, !map_if. cbn [map].
  unfold exit_mode.
  eapply bind_run; [apply when_call; reflexivity |].
  eapply bind_run; [apply mission_block_run |].
  eapply bind_run; [apply when_call; reflexivity |].
  apply bind_get_run. apply bind_get_run.
  eapply bind_run; [apply preload_run; reflexivity |].
  eapply bind_run; [apply call_run; reflexivity |].
  apply heli_block_run. reflexivity.
Qed.

Lemma map_what_obs m (l : list call) : map what (map (obs m) l) = l.
Proof. rewrite map_map. apply map_id. Qed.

Lemma count_occ_if (b : bool) (l1 l2 : list call) c :
  count_occ call_eq_dec (if b then l1 else l2) c =
  if b then count_occ call_eq_dec l1 c else count_occ call_eq_dec l2 c.
Proof. destruct b; reflexivity. Qed.

Ltac count_calls :=
  unfold occurrences; rewrite exit_mode_run; cbn [trace];
  rewrite map_what_obs;
  repeat (rewrite ?count_occ_app, ?count_occ_if);
  cbn.

Ltac split_ifs :=
  repeat match goal with
         | |- context [if ?b then _ else _] => destruct b
         end;
  reflexivity.

(** X1. [exit_mode] writes no member but the mission state: the mode, the
    arming and landing flags, the throttle input and the notify flag are as
    before, and the mission is running afterwards only if it was running and
    the mode left is neither AUTO nor AUTO_RUAS. *)
Theorem exit_mode_state old new s :
  control_mode (state (exit_mode old new s)) = control_mode s /\
  motors_armed (state (exit_mode old new s)) = motors_armed s /\
  land_complete (state (exit_mode old new s)) = land_complete s /\
  control_in (state (exit_mode old new s)) = control_in s /\
  autopilot_mode (state (exit_mode old new s)) = autopilot_mode s /\
  mission_running (state (exit_mode old new s)) =
    mission_running s && negb ((old =? AUTO) || (old =? AUTO_RUAS)).
Proof. rewrite exit_mode_run. repeat split. Qed.

(** X2. [exit_mode] stops the mission once when the mode left is AUTO or
    AUTO_RUAS and the mission is running, and not otherwise; it resets the
    camera mount once when the mode left is AUTO or AUTO_RUAS and the mount is
    built in, whether or not the mission was running. *)
Theorem exit_mode_mission old new s :
  occurrences mission_stop (trace (exit_mode old new s)) =
    (if ((old =? AUTO) || (old =? AUTO_RUAS)) && mission_running s
     then 1%nat else 0%nat) /\
  occurrences camera_mount_set_mode_to_default (trace (exit_mode old new s)) =
    (if ((old =? AUTO) || (old =? AUTO_RUAS)) && MOUNT then 1%nat else 0%nat).
Proof.
  split; count_calls;
    destruct ((old =? AUTO) || (old =? AUTO_RUAS)); destruct (mission_running s);
    destruct MOUNT; cbn; split_ifs.
Qed.

(** X3. Every [exit_mode] stops a takeoff in progress, exactly once, whatever
    the two modes and the vehicle state. *)
Theorem exit_mode_takeoff_stop_once old new s :
  occurrences takeoff_stop (trace (exit_mode old new s)) = 1%nat.
Proof. count_calls. split_ifs. Qed.

(** X4. Without a helicopter frame [exit_mode] makes none of the flybar,
    tail, collective-ramp or radio-passthrough calls and ends with the takeoff
    stop; on a helicopter frame it ends with the radio-passthrough reset,
    which it makes exactly once. *)
Theorem exit_mode_frame_calls old new s :
  (HELI_FRAME = false ->
   Forall (fun o => is_heli_call (what o) = false) (trace (exit_mode old new s)) /\
   exists before,
     trace (exit_mode old new s) = before ++ [obs (control_mode s) takeoff_stop]) /\
  (HELI_FRAME = true ->
   occurrences reset_radio_passthrough (trace (exit_mode old new s)) = 1%nat /\
   exists before,
     trace (exit_mode old new s) =
     before ++ [obs (control_mode s) reset_radio_passthrough]).
Proof.
  split; intro Hframe.
  - rewrite exit_mode_run, Hframe. cbn [trace]. split.
    + apply Forall_map. rewrite !Forall_app.
      repeat split;
        repeat match goal with
               | |- context [if ?b then _ else _] => destruct b
               end;
        repeat constructor.
    + rewrite app_nil_r, !app_assoc, map_app. eexists. reflexivity.
  - split.
    + count_calls. rewrite Hframe. cbn. split_ifs.
    + rewrite exit_mode_run, Hframe. cbn [trace].
      rewrite !app_assoc, map_app. eexists. reflexivity.
Qed.

(** X5. [exit_mode] pre-loads the stabilize collective ramp only on a
    helicopter frame and only when the mode left has no manual throttle: to 1
    when the new mode is STABILIZE or STAB_RUAS, to 0 when the new mode is
    ACRO and neither of those, and not at all otherwise. *)
Theorem exit_mode_collective_ramp old new s :
  occurrences (set_stab_col_ramp 1) (trace (exit_mode old new s)) =
    (if HELI_FRAME && negb (mode_has_manual_throttle old)
        && ((new =? STABILIZE) || (new =? STAB_RUAS))
     then 1%nat else 0%nat) /\
  occurrences (set_stab_col_ramp 0) (trace (exit_mode old new s)) =
    (if HELI_FRAME && negb (mode_has_manual_throttle old)
        && negb ((new =? STABILIZE) || (new =? STAB_RUAS)) && (new =? ACRO)
     then 1%nat else 0%nat).
Proof.
  split; count_calls;
    destruct HELI_FRAME; destruct (mode_has_manual_throttle old);
    destruct ((new =? STABILIZE) || (new =? STAB_RUAS)); destruct (new =? ACRO);
    cbn; split_ifs.
Qed.

(** ** notify_flight_mode and set_mode *)

Lemma notify_flight_mode_run mode s :
  notify_flight_mode mode s =
  mkResult tt
    (mkCopter (control_mode s) (motors_armed s) (land_complete s)
              (mission_running s) (control_in s)
              ((mode =? AUTO) || (mode =? AUTO_RUAS) || (mode =? GUIDED)
               || (mode =? RTL) || (mode =? CIRCLE) || (mode =? LAND)))
    [].
Proof.
  unfold notify_flight_mode.
  destruct (mode =? AUTO); [reflexivity |].
  destruct (mode =? AUTO_RUAS); [reflexivity |].
  destruct (mode =? GUIDED); [reflexivity |].
  destruct (mode =? RTL); [reflexivity |].
  destruct (mode =? CIRCLE); [reflexivity |].
  destruct (mode =? LAND); reflexivity.
Qed.

(** The four outcomes of [set_mode]. *)
Lemma set_mode_cases mode s :
  (mode = control_mode s /\
   set_mode init_returns mode s = mkResult true s []) \/
  (mode <> control_mode s /\ init_case mode = None /\
   set_mode init_returns mode s =
   mkResult false s
     [obs (control_mode s) (Log_Write_Error ERROR_SUBSYSTEM_FLIGHT_MODE mode)]) \/
  (exists f,
     mode <> control_mode s /\ init_case mode = Some f /\
     init_returns f (negb (motors_armed s)) s = false /\
     set_mode init_returns mode s =
     mkResult false s
       [obs (control_mode s) (init f (negb (motors_armed s)));
        obs (control_mode s) (Log_Write_Error ERROR_SUBSYSTEM_FLIGHT_MODE mode)]) \/
  (exists f,
     mode <> control_mode s /\ init_case mode = Some f /\
     init_returns f (negb (motors_armed s)) s = true /\
     set_mode init_returns mode s =
     mkResult true
       (state (notify_flight_mode mode
                 (state (set_control_mode mode
                           (state (exit_mode (control_mode s) mode s))))))
       (obs (control_mode s) (init f (negb (motors_armed s)))
        :: trace (exit_mode (control_mode s) mode s)
        ++ obs mode (Log_Write_Mode mode)
        :: (if AC_FENCE then [obs mode fence_manual_recovery_start] else []))).
Proof.
  destruct (Z.eq_dec mode (control_mode s)) as [-> | Hne].
  - left. split; [reflexivity | apply set_mode_same].
  - right. destruct (init_case mode) as [f |] eqn:Hcase.
    + right. destruct (init_returns f (negb (motors_armed s)) s) eqn:Hret.
      * right. exists f. repeat split; try assumption.
        apply set_mode_accepted; assumption.
      * left. exists f. repeat split; try assumption.
        apply set_mode_refused; assumption.
    + left. repeat split; try assumption. apply set_mode_default; assumption.
Qed.

(** X6. [set_mode] returns [true] exactly when the mode asked for is the
    current one, or it has a case in the switch and its init routine, called
    with [ignore_checks] set when the motors are not armed, answers [true]. *)
Theorem set_mode_succeeds_iff mode s :
  value (set_mode init_returns mode s) = true <->
  mode = control_mode s \/
  exists f, init_case mode = Some f /\
            init_returns f (negb (motors_armed s)) s = true.
Proof.
  destruct (set_mode_cases mode s)
    as [[He Hr] | [(Hne & Hc & Hr) | [(f & Hne & Hc & Hi & Hr) | (f & Hne & Hc & Hi & Hr)]]];
    rewrite Hr; cbn [value]; split.
  - intros _. left. exact He.
  - reflexivity.
  - discriminate.
  - intros [He | (f & Hf & _)]; [contradiction | congruence].
  - discriminate.
  - intros [He | (g & Hg & Hgi)]; [contradiction |]. congruence.
  - intros _. right. exists f. split; assumption.
  - reflexivity.
Qed.

(** X7. After [set_mode] the current mode is the mode asked for when the
    call returned [true] and the previous mode when it returned [false]; the
    arming and landing flags and the throttle input are never written; and if
    the previous mode had a case in the switch, so has the mode left. *)
Theorem set_mode_commit mode s :
  control_mode (state (set_mode init_returns mode s)) =
    (if value (set_mode init_returns mode s) then mode else control_mode s) /\
  motors_armed (state (set_mode init_returns mode s)) = motors_armed s /\
  land_complete (state (set_mode init_returns mode s)) = land_complete s /\
  control_in (state (set_mode init_returns mode s)) = control_in s /\
  (init_case (control_mode s) <> None ->
   init_case (control_mode (state (set_mode init_returns mode s))) <> None).
Proof.
  destruct (set_mode_cases mode s)
    as [[He Hr] | [(Hne & Hc & Hr) | [(f & Hne & Hc & Hi & Hr) | (f & Hne & Hc & Hi & Hr)]]];
    rewrite Hr; cbn [value state].
  - subst mode. repeat split. trivial.
  - repeat split. trivial.
  - repeat split. trivial.
  - rewrite notify_flight_mode_run, exit_mode_run. cbn.
    repeat split. intros _. rewrite Hc. discriminate.
Qed.

(** X8. The init routine is called at most once and before anything else:
    the init calls of [set_mode] are none when the mode asked for is the
    current one or has no case in the switch, and otherwise the single call
    of the routine of that case, with [ignore_checks] equal to not armed,
    made while the previous mode is still current. *)
Theorem set_mode_init_calls mode s :
  filter (fun o => is_init (what o)) (trace (set_mode init_returns mode s)) =
    (if mode =? control_mode s then []
     else match init_case mode with
          | Some f => [obs (control_mode s) (init f (negb (motors_armed s)))]
          | None => []
          end) /\
  (forall f ic, In (init f ic) (map what (trace (set_mode init_returns mode s))) ->
   exists rest,
     trace (set_mode init_returns mode s) = obs (control_mode s) (init f ic) :: rest).
Proof.
  assert (Hexit : filter (fun o => is_init (what o))
                         (trace (exit_mode (control_mode s) mode s)) = []).
  { apply filter_nil_of_Forall.
    destruct (exit_mode_cleanup (control_mode s) mode s) as [_ Hall].
    eapply Forall_impl; [| exact Hall].
    intros o [_ Ho]. destruct (what o); try discriminate; reflexivity. }
  destruct (set_mode_cases mode s)
    as [[He Hr] | [(Hne & Hc & Hr) | [(f & Hne & Hc & Hi & Hr) | (f & Hne & Hc & Hi & Hr)]]];
    rewrite Hr; cbn [trace].
  - subst mode. rewrite Z.eqb_refl. split; [reflexivity |].
    intros f ic [].
  - apply Z.eqb_neq in Hne. rewrite Hne, Hc. split; [reflexivity |].
    intros f ic [H | []]. discriminate.
  - apply Z.eqb_neq in Hne. rewrite Hne, Hc. split; [reflexivity |].
    intros g ic [H | [H | []]]; [| discriminate].
    injection H as <- <-. eexists. reflexivity.
  - apply Z.eqb_neq in Hne. rewrite Hne, Hc. split.
    + cbn [filter what is_init]. rewrite filter_app, Hexit. cbn.
      destruct AC_FENCE; reflexivity.
    + intros g ic [H | H].
      * injection H as <- <-. eexists. reflexivity.
      * exfalso. rewrite map_app in H. apply in_app_or in H.
        destruct H as [H | H].
        -- apply in_map_iff in H. destruct H as (o & Ho & Hin).
           destruct (exit_mode_cleanup (control_mode s) mode s) as [_ Hall].
           rewrite Forall_forall in Hall. destruct (Hall o Hin) as [_ Hcl].
           rewrite Ho in Hcl. discriminate.
        -- destruct AC_FENCE; cbn in H;
             repeat (destruct H as [H | H]; [discriminate |]); exact H.
Qed.

(** X10. Asking again for a mode that [set_mode] has just entered, or was
    already in, does nothing: the second call returns [true], makes no call
    and leaves the state of the first. *)
Theorem set_mode_again_is_noop mode s :
  value (set_mode init_returns mode s) = true ->
  set_mode init_returns mode (state (set_mode init_returns mode s)) =
  mkResult true (state (set_mode init_returns mode s)) [].
Proof.
  intro Hval.
  assert (Hmode : control_mode (state (set_mode init_returns mode s)) = mode).
  { destruct (set_mode_cases mode s)
      as [[He Hr] | [(Hne & Hc & Hr) | [(f & Hne & Hc & Hi & Hr) | (f & Hne & Hc & Hi & Hr)]]];
      rewrite Hr in *; cbn [value state] in *; try discriminate.
    - symmetry. exact He.
    - rewrite notify_flight_mode_run. reflexivity. }
  rewrite <- Hmode at 1. apply set_mode_same.
Qed.

(** X11. After a successful change to another mode the notify flag says
    autopilot exactly when the new mode is AUTO, AUTO_RUAS, GUIDED, RTL, CIRCLE
    or LAND; in particular it is off in every mode with a manual throttle. *)
Theorem set_mode_notify_flag mode s :
  NoDup mode_labels ->
  mode <> control_mode s ->
  value (set_mode init_returns mode s) = true ->
  (autopilot_mode (state (set_mode init_returns mode s)) = true <->
   In mode [AUTO; AUTO_RUAS; GUIDED; RTL; CIRCLE; LAND]) /\
  (mode_has_manual_throttle mode = true ->
   autopilot_mode (state (set_mode init_returns mode s)) = false).
Proof.
  intros Hnd Hne Hval.
  assert (Hflag : autopilot_mode (state (set_mode init_returns mode s)) =
                  (mode =? AUTO) || (mode =? AUTO_RUAS) || (mode =? GUIDED)
                  || (mode =? RTL) || (mode =? CIRCLE) || (mode =? LAND)).
  { destruct (set_mode_cases mode s)
      as [[He Hr] | [(_ & Hc & Hr) | [(f & _ & Hc & Hi & Hr) | (f & _ & Hc & Hi & Hr)]]];
      rewrite Hr in *; cbn [value state] in *; try discriminate.
    - contradiction.
    - rewrite notify_flight_mode_run. reflexivity. }
  assert (Hiff : autopilot_mode (state (set_mode init_returns mode s)) = true <->
                 In mode [AUTO; AUTO_RUAS; GUIDED; RTL; CIRCLE; LAND]).
  { rewrite Hflag, !orb_true_iff, !Z.eqb_eq. simpl.
    split; intro H; intuition auto. }
  split; [exact Hiff |].
  intro Hman. apply not_true_is_false. intro Hauto.
  apply Hiff in Hauto. apply manual_throttle_iff in Hman. simpl in Hauto.
  pose proof (labels_differ 2 4 Hnd eq_refl eq_refl eq_refl) as A1.
  pose proof (labels_differ 2 5 Hnd eq_refl eq_refl eq_refl) as A2.
  pose proof (labels_differ 2 6 Hnd eq_refl eq_refl eq_refl) as A3.
  pose proof (labels_differ 2 8 Hnd eq_refl eq_refl eq_refl) as A4.
  pose proof (labels_differ 2 9 Hnd eq_refl eq_refl eq_refl) as A5.
  pose proof (labels_differ 2 10 Hnd eq_refl eq_refl eq_refl) as A6.
  pose proof (labels_differ 0 4 Hnd eq_refl eq_refl eq_refl) as B1.
  pose proof (labels_differ 0 5 Hnd eq_refl eq_refl eq_refl) as B2.
  pose proof (labels_differ 0 6 Hnd eq_refl eq_refl eq_refl) as B3.
  pose proof (labels_differ 0 8 Hnd eq_refl eq_refl eq_refl) as B4.
  pose proof (labels_differ 0 9 Hnd eq_refl eq_refl eq_refl) as B5.
  pose proof (labels_differ 0 10 Hnd eq_refl eq_refl eq_refl) as B6.
  pose proof (labels_differ 1 4 Hnd eq_refl eq_refl eq_refl) as C1.
  pose proof (labels_differ 1 5 Hnd eq_refl eq_refl eq_refl) as C2.
  pose proof (labels_differ 1 6 Hnd eq_refl eq_refl eq_refl) as C3.
  pose proof (labels_differ 1 8 Hnd eq_refl eq_refl eq_refl) as C4.
  pose proof (labels_differ 1 9 Hnd eq_refl eq_refl eq_refl) as C5.
  pose proof (labels_differ 1 10 Hnd eq_refl eq_refl eq_refl) as C6.
  simpl in *.
  destruct Hman as [-> | [-> | ->]];
    repeat (destruct Hauto as [Hauto | Hauto]; [congruence |]); exact Hauto.
Qed.

(** ** The mode predicates *)

(** X12. A mode with a manual throttle allows arming whatever the origin of
    the request, and never requires GPS. *)
Theorem manual_throttle_modes mode :
  NoDup mode_labels ->
  mode_has_manual_throttle mode = true ->
  (forall arming_from_gcs, mode_allows_arming mode arming_from_gcs = true) /\
  mode_requires_GPS mode = false.
Proof.
  intros Hnd Hman. split.
  - intro gcs. unfold mode_allows_arming. rewrite Hman. reflexivity.
  - apply manual_throttle_iff in Hman.
    pose proof (labels_differ 2 4 Hnd eq_refl eq_refl eq_refl) as A1.
    pose proof (labels_differ 2 5 Hnd eq_refl eq_refl eq_refl) as A2.
    pose proof (labels_differ 2 6 Hnd eq_refl eq_refl eq_refl) as A3.
    pose proof (labels_differ 2 7 Hnd eq_refl eq_refl eq_refl) as A4.
    pose proof (labels_differ 2 8 Hnd eq_refl eq_refl eq_refl) as A5.
    pose proof (labels_differ 2 9 Hnd eq_refl eq_refl eq_refl) as A6.
    pose proof (labels_differ 2 11 Hnd eq_refl eq_refl eq_refl) as A7.
    pose proof (labels_differ 2 15 Hnd eq_refl eq_refl eq_refl) as A8.
    pose proof (labels_differ 2 16 Hnd eq_refl eq_refl eq_refl) as A9.
    pose proof (labels_differ 2 17 Hnd eq_refl eq_refl eq_refl) as A10.
    pose proof (labels_differ 0 4 Hnd eq_refl eq_refl eq_refl) as B1.
    pose proof (labels_differ 0 5 Hnd eq_refl eq_refl eq_refl) as B2.
    pose proof (labels_differ 0 6 Hnd eq_refl eq_refl eq_refl) as B3.
    pose proof (labels_differ 0 7 Hnd eq_refl eq_refl eq_refl) as B4.
    pose proof (labels_differ 0 8 Hnd eq_refl eq_refl eq_refl) as B5.
    pose proof (labels_differ 0 9 Hnd eq_refl eq_refl eq_refl) as B6.
    pose proof (labels_differ 0 11 Hnd eq_refl eq_refl eq_refl) as B7.
    pose proof (labels_differ 0 15 Hnd eq_refl eq_refl eq_refl) as B8.
    pose proof (labels_differ 0 16 Hnd eq_refl eq_refl eq_refl) as B9.
    pose proof (labels_differ 0 17 Hnd eq_refl eq_refl eq_refl) as B10.
    pose proof (labels_differ 1 4 Hnd eq_refl eq_refl eq_refl) as C1.
    pose proof (labels_differ 1 5 Hnd eq_refl eq_refl eq_refl) as C2.
    pose proof (labels_differ 1 6 Hnd eq_refl eq_refl eq_refl) as C3.
    pose proof (labels_differ 1 7 Hnd eq_refl eq_refl eq_refl) as C4.
    pose proof (labels_differ 1 8 Hnd eq_refl eq_refl eq_refl) as C5.
    pose proof (labels_differ 1 9 Hnd eq_refl eq_refl eq_refl) as C6.
    pose proof (labels_differ 1 11 Hnd eq_refl eq_refl eq_refl) as C7.
    pose proof (labels_differ 1 15 Hnd eq_refl eq_refl eq_refl) as C8.
    pose proof (labels_differ 1 16 Hnd eq_refl eq_refl eq_refl) as C9.
    pose proof (labels_differ 1 17 Hnd eq_refl eq_refl eq_refl) as C10.
    simpl in *. unfold mode_requires_GPS.
    destruct Hman as [-> | [-> | ->]];
      repeat match goal with
             | |- context [?a =? ?b] =>
                 destruct (Z.eqb_spec a b); [congruence |]
             end; reflexivity.
Qed.

(** X13. A request from the ground station never loses an arming permission
    a pilot request has, and GUIDED is the only mode in which the origin of
    the request changes the answer. *)
Theorem mode_allows_arming_origin mode :
  (mode_allows_arming mode false = true -> mode_allows_arming mode true = true) /\
  (mode_allows_arming mode true <> mode_allows_arming mode false ->
   mode = GUIDED).
Proof.
  unfold mode_allows_arming. rewrite andb_false_l, andb_true_l, orb_false_r.
  destruct (mode_has_manual_throttle mode || (mode =? LOITER)
            || (mode =? ALT_HOLD) || (mode =? POSHOLD) || (mode =? DRIFT)
            || (mode =? SPORT) || (mode =? THROW)); cbn [orb].
  - split; [reflexivity | intro H; contradiction].
  - split; [discriminate |].
    destruct (Z.eqb_spec mode GUIDED); [trivial | intro H; contradiction].
Qed.

(** ** update_flight_mode *)

Lemma run_case_init_case mode :
  run_case mode = None <-> init_case mode = None.
Proof.
  unfold run_case, init_case.
  repeat match goal with
         | |- context [if ?b then _ else _] =>
             lazymatch b with
             | HELI_FRAME => fail
             | _ => destruct b; [split; discriminate |]
             end
         end.
  split; reflexivity.
Qed.

(** X14. A tick refreshes the EKF limits and then runs at most one mode
    routine: exactly one when the current mode has a case in the switch of
    [set_mode], and none, the tick doing nothing more, when it has not. *)
Theorem update_flight_mode_dispatch s :
  (init_case (control_mode s) <> None ->
   exists r, run_case (control_mode s) = Some r /\
             update_flight_mode s = [getEkfControlLimits; run r]) /\
  (init_case (control_mode s) = None ->
   update_flight_mode s = [getEkfControlLimits]).
Proof.
  unfold update_flight_mode. split; intro H.
  - destruct (run_case (control_mode s)) as [r |] eqn:E.
    + exists r. split; reflexivity.
    + apply run_case_init_case in E. contradiction.
  - apply run_case_init_case in H. rewrite H. reflexivity.
Qed.

(** X15. A mode [set_mode] has just entered is run: after a successful
    change to another mode the next tick calls a run routine, the one of the
    new mode's case. *)
Theorem update_flight_mode_after_set_mode mode s :
  mode <> control_mode s ->
  value (set_mode init_returns mode s) = true ->
  exists r, run_case mode = Some r /\
            update_flight_mode (state (set_mode init_returns mode s)) =
            [getEkfControlLimits; run r].
Proof.
  intros Hne Hval.
  destruct (set_mode_cases mode s)
    as [[He Hr] | [(_ & Hc & Hr) | [(f & _ & Hc & Hi & Hr) | (f & _ & Hc & Hi & Hr)]]];
    rewrite Hr in *; cbn [value state] in *; try discriminate.
  - contradiction.
  - unfold update_flight_mode. rewrite notify_flight_mode_run. cbn.
    destruct (run_case mode) as [r |] eqn:E.
    + exists r. split; reflexivity.
    + apply run_case_init_case in E. congruence.
Qed.

End Extras.

(** ** The extras at the sample configurations *)

Lemma exit_mode_frame_calls_witness :
  (Forall (fun o => is_heli_call (what o) = false)
          (trace (exit_mode (D := MoreSamples.quad_defines) 0 2
                            Samples.flying_stabilize)) /\
   exists before,
     trace (exit_mode (D := MoreSamples.quad_defines) 0 2 Samples.flying_stabilize) =
     before ++ [obs 0 takeoff_stop]) /\
  (occurrences reset_radio_passthrough
     (trace (exit_mode (D := Samples.heli_defines) 0 2 Samples.flying_stabilize)) =
   1%nat /\
   exists before,
     trace (exit_mode (D := Samples.heli_defines) 0 2 Samples.flying_stabilize) =
     before ++ [obs 0 reset_radio_passthrough]).
Proof.
  split.
  - apply (proj1 (@exit_mode_frame_calls MoreSamples.quad_defines 0 2
                    Samples.flying_stabilize)).
    reflexivity.
  - apply (proj2 (@exit_mode_frame_calls Samples.heli_defines 0 2
                    Samples.flying_stabilize)).
    reflexivity.
Defined.

Lemma set_mode_commit_witness :
  init_case (D := Samples.heli_defines)
    (control_mode (state (set_mode (D := Samples.heli_defines) Samples.gps_missing 2
                                   Samples.flying_auto))) <> None.
Proof.
  apply (@set_mode_commit Samples.heli_defines Samples.gps_missing 2
                          Samples.flying_auto).
  discriminate.
Defined.

Lemma set_mode_init_calls_witness :
  exists rest,
    trace (set_mode (D := Samples.heli_defines) Samples.gps_missing 5
                    Samples.flying_stabilize) =
    obs 0 (init loiter_init false) :: rest.
Proof.
  apply (proj2 (@set_mode_init_calls Samples.heli_defines Samples.gps_missing 5
                  Samples.flying_stabilize) loiter_init false).
  left. reflexivity.
Defined.

Lemma set_mode_again_is_noop_witness :
  set_mode (D := Samples.heli_defines) Samples.gps_missing 2
    (state (set_mode (D := Samples.heli_defines) Samples.gps_missing 2
                     Samples.flying_auto)) =
  mkResult true
    (state (set_mode (D := Samples.heli_defines) Samples.gps_missing 2
                     Samples.flying_auto)) [].
Proof.
  apply (@set_mode_again_is_noop Samples.heli_defines Samples.gps_missing 2
                                 Samples.flying_auto).
  reflexivity.
Defined.

Lemma set_mode_notify_flag_witness :
  (autopilot_mode
     (state (set_mode (D := Samples.heli_defines) Samples.gps_missing 9
                      Samples.flying_stabilize)) = true <->
   In 9 [3; 20; 4; 6; 7; 9]) /\
  (mode_has_manual_throttle (D := Samples.heli_defines) 9 = true ->
   autopilot_mode
     (state (set_mode (D := Samples.heli_defines) Samples.gps_missing 9
                      Samples.flying_stabilize)) = false).
Proof.
  apply (@set_mode_notify_flag Samples.heli_defines Samples.gps_missing 9
                               Samples.flying_stabilize).
  - exact heli_labels_distinct.
  - discriminate.
  - reflexivity.
Defined.

Lemma manual_throttle_modes_witness :
  (forall arming_from_gcs,
     mode_allows_arming (D := Samples.heli_defines) 19 arming_from_gcs = true) /\
  mode_requires_GPS (D := Samples.heli_defines) 19 = false.
Proof.
  apply (@manual_throttle_modes Samples.heli_defines 19).
  - exact heli_labels_distinct.
  - reflexivity.
Defined.

Lemma mode_allows_arming_origin_witness :
  mode_allows_arming (D := Samples.heli_defines) 5 true = true /\
  4 = @GUIDED Samples.heli_defines.
Proof.
  split.
  - apply (proj1 (@mode_allows_arming_origin Samples.heli_defines 5)).
    reflexivity.
  - apply (proj2 (@mode_allows_arming_origin Samples.heli_defines 4)).
    discriminate.
Defined.

Lemma update_flight_mode_dispatch_witness :
  (exists r,
     run_case (D := Samples.heli_defines) 3 = Some r /\
     update_flight_mode (D := Samples.heli_defines) Samples.flying_auto =
     [getEkfControlLimits; run r]) /\
  update_flight_mode (D := Samples.heli_defines)
    (FlightMode.mkCopter 99 true false false 0 false) = [getEkfControlLimits].
Proof.
  split.
  - apply (proj1 (@update_flight_mode_dispatch Samples.heli_defines
                    Samples.flying_auto)).
    discriminate.
  - apply (proj2 (@update_flight_mode_dispatch Samples.heli_defines
                    (FlightMode.mkCopter 99 true false false 0 false))).
    reflexivity.
Defined.

Lemma update_flight_mode_after_set_mode_witness :
  exists r,
    run_case (D := Samples.heli_defines) 19 = Some r /\
    update_flight_mode (D := Samples.heli_defines)
      (state (set_mode (D := Samples.heli_defines) Samples.gps_missing 19
                       Samples.flying_auto)) =
    [getEkfControlLimits; run r].
Proof.
  apply (@update_flight_mode_after_set_mode Samples.heli_defines
           Samples.gps_missing 19 Samples.flying_auto).
  - discriminate.
  - reflexivity.
Defined.

End ModeExtras.

(** * Facts about print_flight_mode *)

Module DiagnosticsFacts.

Import FlightMode Diagnostics.
Import String.
Local Open Scope string_scope.
Local Open Scope Z_scope.

Lemma length_append (a b : string) :
  String.length (a ++ b) = (String.length a + String.length b)%nat.
Proof. induction a as [| c a IH]; simpl; [reflexivity | now rewrite IH]. Qed.

Lemma append_inv_tail (a b c : string) : a ++ c = b ++ c -> a = b.
Proof.
  revert b. induction a as [| x a IH]; intros [| y b] H; simpl in H.
  - reflexivity.
  - apply (f_equal String.length) in H. simpl in H.
    rewrite length_append in H. lia.
  - apply (f_equal String.length) in H. simpl in H.
    rewrite length_append in H. lia.
  - injection H as -> H. f_equal. apply IH. exact H.
Qed.

Lemma to_uint_not_nil n : N.to_uint n <> Decimal.Nil.
Proof.
  destruct n as [| p]; simpl; [discriminate |].
  apply DecimalPos.Unsigned.to_uint_nonnil.
Qed.

(** Two numbers of the range of a mode print the same digits only if equal. *)
Lemma print_unsigned_inj m1 m2 :
  0 <= m1 -> 0 <= m2 -> print_unsigned m1 = print_unsigned m2 -> m1 = m2.
Proof.
  intros H1 H2 H. unfold print_unsigned in H.
  apply (f_equal DecimalString.NilZero.uint_of_string) in H.
  rewrite !DecimalString.NilZero.usu in H by apply to_uint_not_nil.
  injection H as H. apply DecimalN.Unsigned.to_uint_inj in H.
  apply Z2N.inj; assumption.
Qed.

Section Print.

Context {D : Defines}.

(** What [print_flight_mode] sends is a name of the switch or the fallback. *)
Lemma print_flight_mode_shape mode :
  (In mode mode_labels /\ In (print_flight_mode mode) mode_names) \/
  (~ In mode mode_labels /\
   print_flight_mode mode = "Mode(" ++ print_unsigned mode ++ ")").
Proof.
  unfold print_flight_mode, mode_labels, mode_names.
  repeat match goal with
         | |- context [?a =? ?b] =>
             destruct (Z.eqb_spec a b);
             [left; split; simpl; subst; tauto |]
         end.
  right. split; [| reflexivity].
  simpl. intuition congruence.
Qed.

(** X16. Two different mode numbers never print the same text: names of
    the switch differ from each other and from every fallback, and two
    fallbacks carry different digits. *)
Theorem print_flight_mode_injective m1 m2 :
  0 <= m1 -> 0 <= m2 -> m1 <> m2 ->
  print_flight_mode m1 <> print_flight_mode m2.
Proof.
  intros H1 H2 Hne H. apply Hne. unfold print_flight_mode in H.
  repeat match type of H with
         | context [?a =? ?b] => destruct (Z.eqb_spec a b)
         end;
    first
      [ congruence
      | discriminate H
      | simpl in H; injection H as H;
        apply append_inv_tail in H; apply print_unsigned_inj; assumption ].
Qed.

(** X17. The text is one of the eighteen names exactly when the number is one
    of the eighteen case labels; any other number prints as [Mode(] followed
    by its decimal digits and [)]. *)
Theorem print_flight_mode_names mode :
  (In mode mode_labels <-> In (print_flight_mode mode) mode_names) /\
  (~ In mode mode_labels ->
   print_flight_mode mode = "Mode(" ++ print_unsigned mode ++ ")").
Proof.
  destruct (print_flight_mode_shape mode) as [[Hin Hname] | [Hout Hfall]].
  - split; [tauto | contradiction].
  - split; [| intros _; exact Hfall].
    split; [contradiction |].
    rewrite Hfall. unfold mode_names. simpl.
    intro H. repeat (destruct H as [H | H]; [discriminate H |]). contradiction.
Qed.

End Print.

Lemma print_flight_mode_injective_witness :
  print_flight_mode (D := Samples.heli_defines) 2 <>
  print_flight_mode (D := Samples.heli_defines) 21 /\
  print_flight_mode (D := Samples.heli_defines) 21 <>
  print_flight_mode (D := Samples.heli_defines) 210.
Proof.
  split.
  - apply (@print_flight_mode_injective Samples.heli_defines 2 21); lia.
  - apply (@print_flight_mode_injective Samples.heli_defines 21 210); lia.
Defined.

Lemma print_flight_mode_names_witness :
  ~ In 21 (mode_labels (D := Samples.heli_defines)) /\
  print_flight_mode (D := Samples.heli_defines) 21 = "Mode(21)".
Proof.
  assert (Hout : ~ In 21 (mode_labels (D := Samples.heli_defines))).
  { simpl. intuition discriminate. }
  split; [exact Hout |].
  apply (proj2 (@print_flight_mode_names Samples.heli_defines 21) Hout).
Defined.

End DiagnosticsFacts.

(** * More on the avoidance manoeuvre *)

Module AvoidanceExtras.

Import Avoidance AvoidanceFacts.
Local Open Scope R_scope.

Lemma floor_distance_bounds d :
  safety_bubble <= floor_distance d /\ d <= floor_distance d /\
  (d < 700 -> floor_distance d < 700) /\
  floor_distance (floor_distance d) = floor_distance d.
Proof.
  rewrite !floor_distance_max. unfold safety_bubble, Rmax.
  repeat match goal with |- context [Rle_dec ?a ?b] => destruct (Rle_dec a b) end;
    repeat split; intros; lra.
Qed.

Lemma in_zone_after (atanf : R -> R) p s :
  in_avoid_zone s -> in_avoid_zone (avoidance_maneuver atanf p s).
Proof.
  intro Hin. rewrite (avoidance_maneuver_inside atanf p s Hin).
  unfold in_avoid_zone in *. cbn.
  destruct (floor_distance_bounds (_trafic_distance s)) as (Hb & Hd & Hlt & _).
  unfold safety_bubble in Hb. destruct Hin as [Ha [Hlo Hhi]].
  specialize (Hlt Hhi).
  split; [exact Ha |]. split; lra.
Qed.

(** X18. Every call writes exactly one log record, after the ones already
    written: it holds the two flags and the two corrections as the call
    leaves them, and the product of [trafic_angle] and the yaw gain. *)
Theorem avoidance_maneuver_logs (atanf : R -> R) p s :
  avoidance_logs (avoidance_maneuver atanf p s) =
  avoidance_logs s ++
  [mkLog (do_avoid_maneuver (avoidance_maneuver atanf p s))
         (avoidance_roll_angle_cd (avoidance_maneuver atanf p s))
         (avoidance_pitch_angle_cd (avoidance_maneuver atanf p s))
         (do_track_maneuver (avoidance_maneuver atanf p s))
         (trafic_angle s * acro_yaw_p s)].
Proof.
  unfold avoidance_maneuver.
  destruct (ltb (Rabs (_trafic_angle s)) 70 && ltb 50 (_trafic_distance s)
            && ltb (_trafic_distance s) 700); reflexivity.
Qed.

(** X19. The avoidance zone lies inside the tracking zone: whenever a call
    sets the avoidance flag it sets the tracking flag too. *)
Theorem avoid_implies_track (atanf : R -> R) p s :
  do_avoid_maneuver (avoidance_maneuver atanf p s) = true ->
  do_track_maneuver (avoidance_maneuver atanf p s) = true.
Proof.
  rewrite do_avoid_flag, do_track_flag.
  unfold in_avoid_zone, in_track_zone. intros [Ha [Hlo Hhi]].
  repeat split; try assumption. lra.
Qed.

(** X20. Raising the stored distance to the safety bubble does not disturb
    the next call: run again on its own result, without new telemetry, the
    manoeuvre leaves the same distance, flags and roll correction, whatever
    the unassigned local holds in either call. *)
Theorem avoidance_maneuver_again (atanf : R -> R) p1 p2 s :
  _trafic_distance (avoidance_maneuver atanf p2 (avoidance_maneuver atanf p1 s)) =
    _trafic_distance (avoidance_maneuver atanf p1 s) /\
  do_track_maneuver (avoidance_maneuver atanf p2 (avoidance_maneuver atanf p1 s)) =
    do_track_maneuver (avoidance_maneuver atanf p1 s) /\
  do_avoid_maneuver (avoidance_maneuver atanf p2 (avoidance_maneuver atanf p1 s)) =
    do_avoid_maneuver (avoidance_maneuver atanf p1 s) /\
  avoidance_roll_angle_cd
    (avoidance_maneuver atanf p2 (avoidance_maneuver atanf p1 s)) =
    avoidance_roll_angle_cd (avoidance_maneuver atanf p1 s).
Proof.
  destruct (ltb (Rabs (_trafic_angle s)) 70 && ltb 50 (_trafic_distance s)
            && ltb (_trafic_distance s) 700) eqn:E.
  - apply avoid_condition in E.
    pose proof (in_zone_after atanf p1 s E) as E1.
    rewrite (avoidance_maneuver_inside atanf p2 _ E1).
    rewrite (avoidance_maneuver_inside atanf p1 s E).
    cbn.
    destruct (floor_distance_bounds (_trafic_distance s)) as (Hb & Hd & Hlt & Hidem).
    rewrite Hidem.
    unfold in_avoid_zone in E. destruct E as [Ha [Hlo Hhi]].
    unfold safety_bubble in Hb.
    assert (T1 : ltb 50 (floor_distance (_trafic_distance s)) = true)
      by (apply ltb_true_iff; lra).
    assert (T2 : ltb (floor_distance (_trafic_distance s)) 1000 = true)
      by (apply ltb_true_iff; specialize (Hlt Hhi); lra).
    assert (T3 : ltb 50 (_trafic_distance s) = true) by (apply ltb_true_iff; lra).
    assert (T4 : ltb (_trafic_distance s) 1000 = true) by (apply ltb_true_iff; lra).
    rewrite T1, T2, T3, T4. repeat split.
  - assert (Hout : ~ in_avoid_zone s).
    { intro H. apply avoid_condition in H. congruence. }
    assert (Hout1 : ~ in_avoid_zone (avoidance_maneuver atanf p1 s)).
    { rewrite (avoidance_maneuver_outside atanf p1 s Hout). exact Hout. }
    rewrite (avoidance_maneuver_outside atanf p2 _ Hout1).
    rewrite (avoidance_maneuver_outside atanf p1 s Hout).
    cbn. repeat split.
Qed.

(** ** Size and direction of the roll correction *)

Lemma response_bounds d :
  safety_bubble <= d -> 0 < response d < 1 / 2.
Proof.
  pose proof sqrt_bubble_bounds as [Hlo Hhi].
  unfold response, avoidance_gain. intro Hd.
  set (q := sqrt safety_bubble) in *. unfold safety_bubble in Hd.
  assert (Hden : 10999 <= d * q - 1) by nra.
  assert (Hpos : 0 < / (d * q - 1)) by (apply Rinv_0_lt_compat; lra).
  assert (Hinv : / (d * q - 1) <= / 10999) by (apply Rinv_le_contravar; lra).
  unfold Rdiv. split; nra.
Qed.

Lemma response_decreasing d1 d2 :
  safety_bubble <= d1 -> d1 <= d2 -> response d2 <= response d1.
Proof.
  pose proof sqrt_bubble_bounds as [Hlo Hhi].
  unfold response, avoidance_gain. intros H1 H12.
  set (q := sqrt safety_bubble) in *. unfold safety_bubble in H1.
  assert (Hden1 : 10999 <= d1 * q - 1) by nra.
  assert (Hden : d1 * q - 1 <= d2 * q - 1) by nra.
  assert (Hinv : / (d2 * q - 1) <= / (d1 * q - 1))
    by (apply Rinv_le_contravar; lra).
  unfold Rdiv. nra.
Qed.

Lemma atan_zero_iff a : atan a = 0 <-> a = 0.
Proof.
  split.
  - intro H. destruct (Rtotal_order a 0) as [Hlt | [He | Hgt]]; [| exact He |].
    + apply atan_increasing in Hlt. rewrite atan_0 in Hlt. lra.
    + apply atan_increasing in Hgt. rewrite atan_0 in Hgt. lra.
  - intros ->. apply atan_0.
Qed.

Lemma atan_sign a : (0 < a -> 0 < atan a) /\ (a < 0 -> atan a < 0).
Proof.
  split; intro H; apply atan_increasing in H; rewrite atan_0 in H; exact H.
Qed.

Lemma atan_monotone a b : a <= b -> atan a <= atan b.
Proof.
  intros [Hlt | ->]; [| lra]. apply atan_increasing in Hlt. lra.
Qed.

Lemma Rabs_atan a : Rabs (atan a) = atan (Rabs a).
Proof.
  destruct (Rle_dec 0 a) as [Hpos | Hneg].
  - rewrite (Rabs_pos_eq a) by exact Hpos.
    apply Rabs_pos_eq. rewrite <- atan_0. apply atan_monotone. exact Hpos.
  - assert (Ha : a < 0) by lra.
    rewrite (Rabs_left a) by exact Ha. rewrite atan_opp.
    apply Rabs_left. apply atan_sign. exact Ha.
Qed.

(** The roll correction inside the zone, for the true arctangent. *)
Lemma roll_inside s p :
  in_avoid_zone s ->
  avoidance_roll_angle_cd (avoidance_maneuver atan p s) =
  (if Rlt_dec (y (_rel_d s)) 0 then 10000 else -10000)
  * atan (x (_rel_v s) * response (floor_distance (_trafic_distance s)) / 9.81).
Proof.
  intro Hin. rewrite (avoidance_maneuver_inside atan p s Hin).
  cbn [Log_Write_Avoidance avoidance_roll_angle_cd].
  rewrite atan_never_limited.
  unfold scale_angle, away_from, avoidance_accel_roll, ltb.
  destruct (Rlt_dec (y (_rel_d s)) 0); lra.
Qed.

(** X21. Inside the avoidance zone the response is positive and below one
    half, so the denominator of line 387 is never zero and the roll
    acceleration commanded is smaller in size than half the relative velocity
    along x (or both are zero). *)
Theorem response_is_bounded (atanf : R -> R) p s :
  Rabs (_trafic_angle s) < 70 /\ 50 < _trafic_distance s < 700 ->
  0 < _trafic_distance (avoidance_maneuver atanf p s) * sqrt safety_bubble - 1 /\
  0 < response (_trafic_distance (avoidance_maneuver atanf p s)) < 1 / 2 /\
  Rabs (avoidance_accel_roll (_rel_v s)
          (_trafic_distance (avoidance_maneuver atanf p s)))
    <= Rabs (x (_rel_v s)) / 2.
Proof.
  intro Hin. change (in_avoid_zone s) in Hin.
  rewrite (avoidance_maneuver_inside atanf p s Hin).
  cbn [Log_Write_Avoidance _trafic_distance].
  destruct (floor_distance_bounds (_trafic_distance s)) as (Hb & _).
  pose proof (response_bounds _ Hb) as [Hpos Hhalf].
  pose proof sqrt_bubble_bounds as [Hlo Hhi].
  split; [| split; [split; assumption |]].
  - unfold safety_bubble in Hb. nra.
  - unfold avoidance_accel_roll. rewrite Rabs_mult.
    rewrite (Rabs_pos_eq (response _)) by lra.
    pose proof (Rabs_pos (x (_rel_v s))). nra.
Qed.

(** X22. With a true arctangent, the roll correction inside the avoidance
    zone is zero exactly when the relative velocity has no x component;
    otherwise its sign is that of the x velocity when the traffic's y
    displacement is negative and the opposite sign when it is not. *)
Theorem roll_correction_direction p s :
  Rabs (_trafic_angle s) < 70 /\ 50 < _trafic_distance s < 700 ->
  (avoidance_roll_angle_cd (avoidance_maneuver atan p s) = 0 <->
   x (_rel_v s) = 0) /\
  (y (_rel_d s) < 0 ->
   0 <= avoidance_roll_angle_cd (avoidance_maneuver atan p s) * x (_rel_v s)) /\
  (0 <= y (_rel_d s) ->
   avoidance_roll_angle_cd (avoidance_maneuver atan p s) * x (_rel_v s) <= 0).
Proof.
  intro Hin. change (in_avoid_zone s) in Hin.
  rewrite (roll_inside s p Hin).
  destruct (floor_distance_bounds (_trafic_distance s)) as (Hb & _).
  pose proof (response_bounds _ Hb) as [Hpos _].
  set (r := response (floor_distance (_trafic_distance s))) in *.
  set (v := x (_rel_v s)).
  assert (Harg : v * r / 9.81 = 0 <-> v = 0).
  { split; intro H; [| rewrite H; lra]. nra. }
  assert (Hsame : 0 <= atan (v * r / 9.81) * v).
  { destruct (Rtotal_order v 0) as [Hlt | [He | Hgt]].
    - assert (Ha : v * r / 9.81 < 0) by nra.
      apply atan_sign in Ha. nra.
    - rewrite He. lra.
    - assert (Ha : 0 < v * r / 9.81) by nra.
      apply atan_sign in Ha. nra. }
  split; [| split].
  - split; intro H.
    + apply Harg, atan_zero_iff.
      destruct (Rlt_dec (y (_rel_d s)) 0); lra.
    + apply Harg, atan_zero_iff in H. rewrite H.
      destruct (Rlt_dec (y (_rel_d s)) 0); lra.
  - intro Hy. destruct (Rlt_dec (y (_rel_d s)) 0); [nra | lra].
  - intro Hy. destruct (Rlt_dec (y (_rel_d s)) 0); [lra | nra].
Qed.

(** X23. With a true arctangent, the roll correction inside the avoidance
    zone is bounded by the relative velocity: its size is at most 10000 times
    the arctangent of half the x speed over 9.81, and always below
    10000 * PI / 2. *)
Theorem roll_correction_size p s :
  Rabs (_trafic_angle s) < 70 /\ 50 < _trafic_distance s < 700 ->
  Rabs (avoidance_roll_angle_cd (avoidance_maneuver atan p s))
    <= 10000 * atan (Rabs (x (_rel_v s)) / 2 / 9.81) /\
  Rabs (avoidance_roll_angle_cd (avoidance_maneuver atan p s))
    < 10000 * (PI / 2).
Proof.
  intro Hin. change (in_avoid_zone s) in Hin.
  rewrite (roll_inside s p Hin).
  destruct (floor_distance_bounds (_trafic_distance s)) as (Hb & _).
  pose proof (response_bounds _ Hb) as [Hpos Hhalf].
  set (r := response (floor_distance (_trafic_distance s))) in *.
  set (v := x (_rel_v s)).
  assert (Hfac : Rabs (if Rlt_dec (y (_rel_d s)) 0 then 10000 else -10000) = 10000).
  { destruct (Rlt_dec (y (_rel_d s)) 0);
      [apply Rabs_pos_eq; lra | rewrite Rabs_left; lra]. }
  rewrite Rabs_mult, Hfac, Rabs_atan.
  assert (Harg : Rabs (v * r / 9.81) <= Rabs v / 2 / 9.81).
  { unfold Rdiv. rewrite !Rabs_mult.
    rewrite (Rabs_pos_eq r) by lra.
    rewrite (Rabs_pos_eq (/ 9.81)) by lra.
    pose proof (Rabs_pos v). nra. }
  split.
  - apply atan_monotone in Harg. lra.
  - pose proof (atan_bound (Rabs (v * r / 9.81))) as [_ Hup]. lra.
Qed.

(** X24. With a true arctangent, traffic farther away never gets a larger
    roll correction: for the same relative x velocity, inside the avoidance
    zone, the size of the correction does not grow with the distance, and it
    is the same for all distances up to the safety bubble. *)
Theorem roll_correction_fades_with_distance p1 p2 s1 s2 :
  Rabs (_trafic_angle s1) < 70 /\ 50 < _trafic_distance s1 < 700 ->
  Rabs (_trafic_angle s2) < 70 /\ 50 < _trafic_distance s2 < 700 ->
  x (_rel_v s1) = x (_rel_v s2) ->
  _trafic_distance s1 <= _trafic_distance s2 ->
  Rabs (avoidance_roll_angle_cd (avoidance_maneuver atan p2 s2))
    <= Rabs (avoidance_roll_angle_cd (avoidance_maneuver atan p1 s1)) /\
  (_trafic_distance s2 <= safety_bubble ->
   Rabs (avoidance_roll_angle_cd (avoidance_maneuver atan p2 s2))
     = Rabs (avoidance_roll_angle_cd (avoidance_maneuver atan p1 s1))).
Proof.
  intros Hin1 Hin2 Hv Hd.
  change (in_avoid_zone s1) in Hin1. change (in_avoid_zone s2) in Hin2.
  rewrite (roll_inside s1 p1 Hin1), (roll_inside s2 p2 Hin2), <- Hv.
  assert (Hfac : forall t : R,
             Rabs (if Rlt_dec t 0 then 10000 else -10000) = 10000).
  { intro t. destruct (Rlt_dec t 0);
      [apply Rabs_pos_eq; lra | rewrite Rabs_left; lra]. }
  rewrite !Rabs_mult, !Hfac, !Rabs_atan.
  destruct (floor_distance_bounds (_trafic_distance s1)) as (Hb1 & _).
  destruct (floor_distance_bounds (_trafic_distance s2)) as (Hb2 & _).
  pose proof (response_bounds _ Hb1) as [Hpos1 _].
  pose proof (response_bounds _ Hb2) as [Hpos2 _].
  assert (Hfloor : floor_distance (_trafic_distance s1)
                   <= floor_distance (_trafic_distance s2)).
  { rewrite !floor_distance_max. apply Rle_max_compat_r. exact Hd. }
  pose proof (response_decreasing _ _ Hb1 Hfloor) as Hresp.
  set (r1 := response (floor_distance (_trafic_distance s1))) in *.
  set (r2 := response (floor_distance (_trafic_distance s2))) in *.
  set (v := x (_rel_v s1)).
  assert (Habs : forall r, 0 < r -> Rabs (v * r / 9.81) = Rabs v * r / 9.81).
  { intros r Hr. unfold Rdiv. rewrite !Rabs_mult.
    rewrite (Rabs_pos_eq r) by lra.
    rewrite (Rabs_pos_eq (/ 9.81)) by lra. reflexivity. }
  rewrite (Habs r1 Hpos1), (Habs r2 Hpos2).
  split.
  - assert (Harg : Rabs v * r2 / 9.81 <= Rabs v * r1 / 9.81).
    { pose proof (Rabs_pos v). nra. }
    apply atan_monotone in Harg. lra.
  - intro Hnear.
    assert (Hsame : floor_distance (_trafic_distance s1)
                    = floor_distance (_trafic_distance s2)).
    { rewrite !floor_distance_max. unfold Rmax.
      repeat match goal with
             | |- context [Rle_dec ?a ?b] => destruct (Rle_dec a b)
             end; lra. }
    unfold r1, r2. rewrite Hsame. reflexivity.
Qed.

(** ** The extras at the sample inputs *)

Lemma near_contacts_in_zone :
  (Rabs (_trafic_angle MoreSamples.near_contact) < 70 /\
   50 < _trafic_distance MoreSamples.near_contact < 700) /\
  (Rabs (_trafic_angle MoreSamples.nearer_bubble_contact) < 70 /\
   50 < _trafic_distance MoreSamples.nearer_bubble_contact < 700).
Proof.
  unfold MoreSamples.near_contact, MoreSamples.nearer_bubble_contact. simpl.
  rewrite Rabs_R0. lra.
Qed.

Lemma avoid_implies_track_witness :
  do_track_maneuver (avoidance_maneuver atan 0 Samples.first_contact) = true.
Proof.
  apply (avoid_implies_track atan 0 Samples.first_contact).
  apply do_avoid_flag. exact first_contact_in_zone.
Defined.

Lemma response_is_bounded_witness :
  0 < _trafic_distance (avoidance_maneuver atan 0 MoreSamples.near_contact)
      * sqrt safety_bubble - 1 /\
  0 < response (_trafic_distance
                  (avoidance_maneuver atan 0 MoreSamples.near_contact)) < 1 / 2 /\
  Rabs (avoidance_accel_roll (_rel_v MoreSamples.near_contact)
          (_trafic_distance (avoidance_maneuver atan 0 MoreSamples.near_contact)))
    <= Rabs (x (_rel_v MoreSamples.near_contact)) / 2.
Proof.
  apply (response_is_bounded atan 0 MoreSamples.near_contact).
  exact (proj1 near_contacts_in_zone).
Defined.

Lemma roll_correction_direction_witness :
  (avoidance_roll_angle_cd (avoidance_maneuver atan 0 Samples.first_contact) = 0 <->
   x (_rel_v Samples.first_contact) = 0) /\
  avoidance_roll_angle_cd (avoidance_maneuver atan 0 Samples.first_contact)
    * x (_rel_v Samples.first_contact) <= 0.
Proof.
  destruct (roll_correction_direction 0 Samples.first_contact
              first_contact_in_zone) as (Hzero & _ & Hside).
  split; [exact Hzero |].
  apply Hside. unfold Samples.first_contact. simpl. lra.
Defined.

Lemma roll_correction_size_witness :
  Rabs (avoidance_roll_angle_cd (avoidance_maneuver atan 0 Samples.first_contact))
    <= 10000 * atan (Rabs (x (_rel_v Samples.first_contact)) / 2 / 9.81) /\
  Rabs (avoidance_roll_angle_cd (avoidance_maneuver atan 0 Samples.first_contact))
    < 10000 * (PI / 2).
Proof.
  apply (roll_correction_size 0 Samples.first_contact).
  exact first_contact_in_zone.
Defined.

Lemma roll_correction_fades_with_distance_witness :
  Rabs (avoidance_roll_angle_cd
          (avoidance_maneuver atan 0 MoreSamples.nearer_bubble_contact))
    <= Rabs (avoidance_roll_angle_cd
               (avoidance_maneuver atan 0 MoreSamples.near_contact)) /\
  Rabs (avoidance_roll_angle_cd
          (avoidance_maneuver atan 0 MoreSamples.nearer_bubble_contact))
    = Rabs (avoidance_roll_angle_cd
              (avoidance_maneuver atan 0 MoreSamples.near_contact)).
Proof.
  destruct (roll_correction_fades_with_distance 0 0
              MoreSamples.near_contact MoreSamples.nearer_bubble_contact
              (proj1 near_contacts_in_zone) (proj2 near_contacts_in_zone))
    as [Hle Heq].
  - reflexivity.
  - unfold MoreSamples.near_contact, MoreSamples.nearer_bubble_contact. simpl. lra.
  - split; [exact Hle |]. apply Heq.
    unfold MoreSamples.nearer_bubble_contact, safety_bubble. simpl. lra.
Defined.

End AvoidanceExtras.
